(** * elfsize: the size of an ELF binary, read from its header

    A shallow embedding of [main.go] (package [main] of helloSystem/elfsize)
    and of the parts of the Go standard library it calls ([os], [io],
    [encoding/binary], [debug/elf]).

    Conventions.
    - A byte is a [Byte.byte]; a file's contents are a [list byte]; [u8]
      reads a byte as the number in [0, 256) it stands for.
    - Go's fixed-width integers are [Z] with the wrap-around written out
      ([to_int64], [int64_add], [int64_mul]).
    - A Go [error] value is [option error] ([None] is [nil]); a call that
      returns [(T, error)] is a sum [error + T] when the library never
      returns both.
    - The standard streams are lists of writes, oldest first. *)

From Stdlib Require Import ZArith List String Ascii Bool Lia DecimalString.
From Stdlib.Strings Require Import Byte.
Import ListNotations.

Local Open Scope string_scope.
Local Open Scope list_scope.
Local Open Scope Z_scope.

(** ** Go integers *)

(** The value of a [uint8]. *)
Definition u8 (b : byte) : Z := Z.of_N (Byte.to_N b).

(** Conversion of an integer value to [int64]: the low 64 bits, read as a
    two's complement number. *)
Definition to_int64 (z : Z) : Z := (z + 2 ^ 63) mod 2 ^ 64 - 2 ^ 63.

(** [a + b] and [a * b] on [int64] operands: Go wraps silently. *)
Definition int64_add (a b : Z) : Z := to_int64 (a + b).
Definition int64_mul (a b : Z) : Z := to_int64 (a * b).

Definition maxint64 : Z := 2 ^ 63 - 1.

(** [strconv.FormatInt(z, 10)], which is also how [fmt] prints an integer
    under [%v]. *)
Definition FormatInt (z : Z) : string := NilZero.string_of_int (Z.to_int z).

(** The line feed that Go writes as ["\n"]. *)
Definition LF : string := String (ascii_of_nat 10) EmptyString.

(** ** Errors *)

Inductive Errno : Set :=
| ENOENT | EACCES | ENOTDIR | EISDIR | ELOOP | ENAMETOOLONG | EIO | EMFILE.

(** A Go [error], and the value an [*elf.FormatError] carries: bytes, a
    number, or the error it wraps. *)
Inductive error : Set :=
| PathError (op path : string) (e : Errno)            (* *fs.PathError *)
| ErrInvalid                                          (* os.ErrInvalid *)
| EOF                                                 (* io.EOF *)
| ErrUnexpectedEOF                                    (* io.ErrUnexpectedEOF *)
| errWhence                                           (* io: Seek: invalid whence *)
| errOffset                                           (* io: Seek: invalid offset *)
| FormatError (off : Z) (msg : string) (val : fmtval) (* *elf.FormatError *)
| LibError (msg : string)                             (* any other library error *)
with fmtval : Set :=
| ValBytes (b : list byte)
| ValInt (z : Z)
| ValError (e : error).

(** A run-time panic. *)
Inductive panic : Set :=
| NilDereference.

Inductive result (A : Type) : Type :=
| Ret (a : A)
| Panic (p : panic).
Arguments Ret {A} a.
Arguments Panic {A} p.

(** ** Package os *)

Record FileInfo : Set := { IsDir : bool }.

(** An open [*os.File]: what [f.Stat()] answers and what reads see.  The file
    does not change while the program runs; [contents = inl e] is a handle
    every read of which fails with [e] (a directory, a failing device). *)
Record File : Set := {
  stat_err : option error;
  contents : error + list byte
}.

(** The file system as the program sees it. *)
Record OS : Type := {
  sys_stat : string -> error + FileInfo;
  sys_open : string -> error + File
}.

(** [os.Stat(name)]: on failure the [FileInfo] is [nil]. *)
Definition os_Stat (os : OS) (name : string) : option FileInfo * option error :=
  match sys_stat os name with
  | inl e => (None, Some e)
  | inr info => (Some info, None)
  end.

(** [os.Open(name)]: on failure the [*File] is [nil]. *)
Definition os_Open (os : OS) (name : string) : option File * option error :=
  match sys_open os name with
  | inl e => (None, Some e)
  | inr f => (Some f, None)
  end.

(** [os.IsNotExist(err)]. *)
Definition os_IsNotExist (err : option error) : bool :=
  match err with
  | Some (PathError _ _ ENOENT) => true
  | _ => false
  end.

(** [f.Stat()] on an open file; only the error is used by the program. *)
Definition File_Stat (f : File) : option error := stat_err f.

(** [f.ReadAt(b, off)] with [len(b) = n]: the bytes read and the error.  A
    [nil] file is invalid; a read that stops short of [n] bytes reports
    [io.EOF]. *)
Definition File_ReadAt (f : option File) (n : nat) (off : Z) : list byte * option error :=
  match f with
  | None => ([], Some ErrInvalid)
  | Some f =>
    match contents f with
    | inl e => ([], Some e)
    | inr bs =>
      if off <? 0 then ([], Some (LibError "negative offset"))
      else
        let got :=
          if Z.of_nat (List.length bs) <=? off then []
          else firstn n (skipn (Z.to_nat off) bs) in
        if (List.length got <? n)%nat then (got, Some EOF) else (got, None)
    end
  end.

(** ** Package io *)

(** [*io.SectionReader] over a file. *)
Record SectionReader : Set := {
  sr_r : option File;
  sr_base : Z;
  sr_off : Z;
  sr_limit : Z
}.

(** [io.NewSectionReader(r, off, n)]. *)
Definition NewSectionReader (r : option File) (off n : Z) : SectionReader :=
  let remaining := if off <=? maxint64 - n then n + off else maxint64 in
  {| sr_r := r; sr_base := off; sr_off := off; sr_limit := remaining |}.

(** [s.Seek(offset, whence)]: the reader afterwards and the error. *)
Definition SectionReader_Seek (s : SectionReader) (offset whence : Z)
  : SectionReader * option error :=
  let target :=
    if whence =? 0 then Some (offset + sr_base s)
    else if whence =? 1 then Some (offset + sr_off s)
    else if whence =? 2 then Some (offset + sr_limit s)
    else None in
  match target with
  | None => (s, Some errWhence)
  | Some o =>
    if o <? sr_base s then (s, Some errOffset)
    else ({| sr_r := sr_r s; sr_base := sr_base s; sr_off := o; sr_limit := sr_limit s |}, None)
  end.

(** [s.Read(p)] with [len(p) = n]. *)
Definition SectionReader_Read (s : SectionReader) (n : nat)
  : SectionReader * list byte * option error :=
  if sr_limit s <=? sr_off s then (s, [], Some EOF)
  else
    let max := sr_limit s - sr_off s in
    let n' := if max <? Z.of_nat n then Z.to_nat max else n in
    let '(got, err) := File_ReadAt (sr_r s) n' (sr_off s) in
    ({| sr_r := sr_r s; sr_base := sr_base s;
        sr_off := sr_off s + Z.of_nat (List.length got); sr_limit := sr_limit s |},
     got, err).

(** [io.ReadFull(s, buf)] with [len(buf) = n].  A read of a file fills the
    buffer or reports an error, so the loop of [io.ReadAtLeast] takes one
    [Read], or two when the section's limit cut the first one short; the
    second then reports [io.EOF]. *)
Definition ReadFull (s : SectionReader) (n : nat) : SectionReader * (error + list byte) :=
  let '(s', got, err) := SectionReader_Read s n in
  if (n <=? List.length got)%nat then (s', inr got)
  else
    match got, err with
    | [], Some e => (s', inl e)
    | _ :: _, Some EOF => (s', inl ErrUnexpectedEOF)
    | _ :: _, Some e => (s', inl e)
    | [], None => (s', inl EOF)
    | _ :: _, None => (s', inl ErrUnexpectedEOF)
    end.

(** [s.ReadAt(p, off)] with [len(p) = n]: a read that the end of the
    section cuts short reports [io.EOF] even when the file gave no error. *)
Definition SectionReader_ReadAt (s : SectionReader) (n : nat) (off : Z)
  : list byte * option error :=
  if (off <? 0) || (sr_limit s - sr_base s <=? off) then ([], Some EOF)
  else
    let off := off + sr_base s in
    let max := sr_limit s - off in
    if max <? Z.of_nat n then
      let '(got, err) := File_ReadAt (sr_r s) (Z.to_nat max) off in
      (got, match err with
            | None => Some EOF
            | Some e => Some e
            end)
    else File_ReadAt (sr_r s) n off.

(** ** Package internal/saferio *)

(** The largest piece [saferio] reads at once: 10 MB. *)
Definition chunk : Z := 10 * 1024 * 1024.

(** The loop of [saferio.ReadDataAt] for large [n]: pieces of at most
    [chunk] bytes are read one after the other until [n] bytes are there
    or a read fails.  [fuel] bounds the number of pieces. *)
Fixpoint read_chunks (fuel : nat) (s : SectionReader) (n off : Z) : error + list byte :=
  match fuel with
  | O => inr []
  | S fuel =>
    if n <=? 0 then inr []
    else
      let next := if chunk <? n then chunk else n in
      match SectionReader_ReadAt s (Z.to_nat next) off with
      | (_, Some err) => inl err
      | (got, None) =>
        match read_chunks fuel s (n - next) (off + next) with
        | inl err => inl err
        | inr rest => inr (got ++ rest)
        end
      end
  end.

(** [saferio.ReadDataAt(s, n, off)] for a [uint64] [n]: the [n] bytes at
    [off], or the error of the read that failed.  An [io.EOF] is passed
    over only when no byte was asked for. *)
Definition ReadDataAt (s : SectionReader) (n off : Z) : error + list byte :=
  if 2 ^ 63 <=? n then inl ErrUnexpectedEOF
  else if n <? chunk then
    match SectionReader_ReadAt s (Z.to_nat n) off with
    | (got, None) => inr got
    | (got, Some EOF) => if 0 <? n then inl EOF else inr got
    | (_, Some err) => inl err
    end
  else read_chunks (Z.to_nat (n / chunk) + 1) s n off.

(** ** Package encoding/binary *)

Inductive ByteOrder : Set := LittleEndian | BigEndian.

(** [b[0] | b[1]<<8 | b[2]<<16 | ...]: the little-endian value of [b]. *)
Fixpoint le_uint (b : list byte) : Z :=
  match b with
  | [] => 0
  | x :: r => Z.lor (u8 x) (Z.shiftl (le_uint r) 8)
  end.

(** [order.Uint16], [order.Uint32] and [order.Uint64], by the width of [b]. *)
Definition order_uint (o : ByteOrder) (b : list byte) : Z :=
  match o with
  | LittleEndian => le_uint b
  | BigEndian => le_uint (rev b)
  end.

(** The decoder of [binary.Read]: fields are taken from the front of the
    buffer, one after the other, in the order the struct declares them. *)
Definition decoder (A : Type) : Type := list byte -> A * list byte.

Definition dec_ret {A : Type} (a : A) : decoder A := fun buf => (a, buf).

Definition dec_bind {A B : Type} (d : decoder A) (k : A -> decoder B) : decoder B :=
  fun buf => let '(a, rest) := d buf in k a rest.

Notation "x <- d ;; k" := (dec_bind d (fun x => k))
  (at level 61, d at next level, right associativity).

Definition dec_bytes (n : nat) : decoder (list byte) :=
  fun buf => (firstn n buf, skipn n buf).

Definition dec_uint (o : ByteOrder) (n : nat) : decoder Z :=
  fun buf => (order_uint o (firstn n buf), skipn n buf).

Definition dec_uint16 (o : ByteOrder) : decoder Z := dec_uint o 2.
Definition dec_uint32 (o : ByteOrder) : decoder Z := dec_uint o 4.
Definition dec_uint64 (o : ByteOrder) : decoder Z := dec_uint o 8.

(** [binary.Read(s, order, data)] for a struct of [size] bytes decoded by
    [dec]: fill a buffer of that size with [io.ReadFull], then decode it. *)
Definition binary_Read {A : Type} (size : nat) (dec : ByteOrder -> decoder A)
  (s : SectionReader) (o : ByteOrder) : SectionReader * (error + A) :=
  let '(s', r) := ReadFull s size in
  match r with
  | inl err => (s', inl err)
  | inr buf => (s', inr (fst (dec o buf)))
  end.

(** ** Package debug/elf *)

Definition EI_CLASS : nat := 4.
Definition EI_DATA : nat := 5.
Definition EI_VERSION : nat := 6.
Definition EI_OSABI : nat := 7.
Definition EI_ABIVERSION : nat := 8.
Definition ELFCLASS32 : Z := 1.
Definition ELFCLASS64 : Z := 2.
Definition ELFDATA2LSB : Z := 1.
Definition ELFDATA2MSB : Z := 2.
Definition EV_CURRENT : Z := 1.

(** [b[i]] of an array or slice, for an [i] within its bounds. *)
Definition index (b : list byte) (i : nat) : Z := u8 (nth i b x00).

(** [elf.Header32]: the ELF32 file header. *)
Module Header32.
Record t : Set := {
  Ident : list byte; (* [EI_NIDENT]byte *)
  Type_ : Z;        (* uint16 *)
  Machine : Z;      (* uint16 *)
  Version : Z;      (* uint32 *)
  Entry : Z;        (* uint32 *)
  Phoff : Z;        (* uint32 *)
  Shoff : Z;        (* uint32 *)
  Flags : Z;        (* uint32 *)
  Ehsize : Z;       (* uint16 *)
  Phentsize : Z;    (* uint16 *)
  Phnum : Z;        (* uint16 *)
  Shentsize : Z;    (* uint16 *)
  Shnum : Z;        (* uint16 *)
  Shstrndx : Z      (* uint16 *)
}.
Definition size : nat := 52.
Definition decode (o : ByteOrder) : decoder t :=
  ident <- dec_bytes 16 ;;
  type <- dec_uint16 o ;;
  machine <- dec_uint16 o ;;
  version <- dec_uint32 o ;;
  entry <- dec_uint32 o ;;
  phoff <- dec_uint32 o ;;
  shoff <- dec_uint32 o ;;
  flags <- dec_uint32 o ;;
  ehsize <- dec_uint16 o ;;
  phentsize <- dec_uint16 o ;;
  phnum <- dec_uint16 o ;;
  shentsize <- dec_uint16 o ;;
  shnum <- dec_uint16 o ;;
  shstrndx <- dec_uint16 o ;;
  dec_ret (Build_t ident type machine version entry phoff shoff flags ehsize
                   phentsize phnum shentsize shnum shstrndx).
End Header32.

(** [elf.Header64]: the ELF64 file header. *)
Module Header64.
Record t : Set := {
  Ident : list byte; (* [EI_NIDENT]byte *)
  Type_ : Z;        (* uint16 *)
  Machine : Z;      (* uint16 *)
  Version : Z;      (* uint32 *)
  Entry : Z;        (* uint64 *)
  Phoff : Z;        (* uint64 *)
  Shoff : Z;        (* uint64 *)
  Flags : Z;        (* uint32 *)
  Ehsize : Z;       (* uint16 *)
  Phentsize : Z;    (* uint16 *)
  Phnum : Z;        (* uint16 *)
  Shentsize : Z;    (* uint16 *)
  Shnum : Z;        (* uint16 *)
  Shstrndx : Z      (* uint16 *)
}.
Definition size : nat := 64.
Definition decode (o : ByteOrder) : decoder t :=
  ident <- dec_bytes 16 ;;
  type <- dec_uint16 o ;;
  machine <- dec_uint16 o ;;
  version <- dec_uint32 o ;;
  entry <- dec_uint64 o ;;
  phoff <- dec_uint64 o ;;
  shoff <- dec_uint64 o ;;
  flags <- dec_uint32 o ;;
  ehsize <- dec_uint16 o ;;
  phentsize <- dec_uint16 o ;;
  phnum <- dec_uint16 o ;;
  shentsize <- dec_uint16 o ;;
  shnum <- dec_uint16 o ;;
  shstrndx <- dec_uint16 o ;;
  dec_ret (Build_t ident type machine version entry phoff shoff flags ehsize
                   phentsize phnum shentsize shnum shstrndx).
End Header64.

(** [binary.Read(s, order, hdr)] for [hdr] a [*elf.Header32] or a
    [*elf.Header64]. *)
Definition Read_Header32 : SectionReader -> ByteOrder -> SectionReader * (error + Header32.t) :=
  binary_Read Header32.size Header32.decode.
Definition Read_Header64 : SectionReader -> ByteOrder -> SectionReader * (error + Header64.t) :=
  binary_Read Header64.size Header64.decode.

(** The file header [elf.NewFile] has decoded, of either class. *)
Inductive Header : Set :=
| Hdr32 (h : Header32.t)
| Hdr64 (h : Header64.t).

(** An [*elf.Section] of a loaded file: its name, where it lies, and what
    its method [Data()] returns. *)
Module ElfSection.
Record t : Set := {
  Name : string;
  Offset : Z;       (* uint64 *)
  Size : Z;         (* uint64 *)
  Data : error + list byte
}.
End ElfSection.

(** [*elf.File]: the fields of [elf.FileHeader] and the section list. *)
Module ElfFile.
Record t : Set := {
  Class : Z;        (* elf.Class, a byte *)
  Data : Z;         (* elf.Data, a byte *)
  Version : Z;      (* elf.Version, a byte *)
  OSABI : Z;
  ABIVersion : Z;
  Order : ByteOrder;  (* the field ByteOrder *)
  Type_ : Z;
  Machine : Z;
  Entry : Z;
  Sections : list ElfSection.t
}.
End ElfFile.

(** [Class.String()]: the name from the table [classStrings], else the
    nearest smaller name plus the difference, as [stringName] builds it. *)
Definition Class_String (c : Z) : string :=
  if c =? 0 then "ELFCLASSNONE"
  else if c =? 1 then "ELFCLASS32"
  else if c =? 2 then "ELFCLASS64"
  else ("ELFCLASS64+" ++ FormatInt (c - 2))%string.

(** [ident[0] != '\x7f' || ident[1] != 'E' || ident[2] != 'L' || ident[3] != 'F'],
    the test both [elf.NewFile] and [CalculateElfSize] make. *)
Definition bad_magic (ident : list byte) : bool :=
  negb (index ident 0 =? 127) || negb (index ident 1 =? 69)
  || negb (index ident 2 =? 76) || negb (index ident 3 =? 70).

(** [f.Section(name)]: the first section with that name, or [nil]. *)
Definition File_Section (f : ElfFile.t) (name : string) : option ElfSection.t :=
  find (fun s => String.eqb (ElfSection.Name s) name) (ElfFile.Sections f).

(** What the program writes to the error stream. *)
Inductive output : Set :=
| Text (s : string)                          (* the text itself *)
| ErrorText (context : string) (e : error)   (* "ERROR <context>: <e.Error()>\n" *)
| MagicText (b : list byte).                   (* "Bad magic number at <b>\n" *)

(** How a run of the program ends: with an exit status ([main] returning is
    status 0), or in a panic, which the Go runtime reports itself. *)
Inductive Exit : Set :=
| Exited (status : Z)
| Panicked (p : panic).

(** A run of the program: what it wrote to each stream, and how it ended. *)
Record Outcome : Set := {
  stdout : list string;
  stderr : list output;
  exit : Exit
}.


(** ** The header fields the size is computed from *)

(** The byte order an accepted file is decoded in. *)
Definition order_of (bs : list byte) : ByteOrder :=
  if index bs EI_DATA =? ELFDATA2LSB then LittleEndian else BigEndian.

(** The file header at the front of [bs], of the class and in the byte order
    its identification bytes name. *)
Definition file_header (bs : list byte) : Header :=
  if index bs EI_CLASS =? ELFCLASS32
  then Hdr32 (fst (Header32.decode (order_of bs) (firstn Header32.size bs)))
  else Hdr64 (fst (Header64.decode (order_of bs) (firstn Header64.size bs))).

Definition section_header_offset (h : Header) : Z :=
  match h with
  | Hdr32 h => Header32.Shoff h
  | Hdr64 h => Header64.Shoff h
  end.

Definition section_header_entry_size (h : Header) : Z :=
  match h with
  | Hdr32 h => Header32.Shentsize h
  | Hdr64 h => Header64.Shentsize h
  end.

Definition section_header_entry_count (h : Header) : Z :=
  match h with
  | Hdr32 h => Header32.Shnum h
  | Hdr64 h => Header64.Shnum h
  end.

(** The machine field of a file header. *)
Definition machine_of (h : Header) : Z :=
  match h with
  | Hdr32 h => Header32.Machine h
  | Hdr64 h => Header64.Machine h
  end.

(** The type, version and entry fields of a file header. *)
Definition type_of (h : Header) : Z :=
  match h with
  | Hdr32 h => Header32.Type_ h
  | Hdr64 h => Header64.Type_ h
  end.

Definition version_of (h : Header) : Z :=
  match h with
  | Hdr32 h => Header32.Version h
  | Hdr64 h => Header64.Version h
  end.

Definition entry_of (h : Header) : Z :=
  match h with
  | Hdr32 h => Header32.Entry h
  | Hdr64 h => Header64.Entry h
  end.

(** The file header as [elf.NewFile] reads it: the bytes of the header of
    the class, taken with [sr.ReadAt(data, 0)] and decoded field by field in
    the byte order of the file. *)
Definition read_header (sr : SectionReader) (class : Z) (bo : ByteOrder)
  : error + Header :=
  if class =? ELFCLASS32 then
    match SectionReader_ReadAt sr Header32.size 0 with
    | (_, Some err) => inl err
    | (data, None) => inr (Hdr32 (fst (Header32.decode bo data)))
    end
  else
    match SectionReader_ReadAt sr Header64.size 0 with
    | (_, Some err) => inl err
    | (data, None) => inr (Hdr64 (fst (Header64.decode bo data)))
    end.

(** The section header table as [elf.NewFile] reads it, for a header that
    counts sections: all its [shnum * shentsize] bytes at [shoff], with
    [saferio.ReadDataAt].  Only the error is kept: the bytes are decoded by
    the loader of the tables. *)
Definition read_section_table (sr : SectionReader) (h : Header) : option error :=
  if 0 <? section_header_entry_count h then
    match ReadDataAt sr
            (section_header_entry_count h * section_header_entry_size h)
            (to_int64 (section_header_offset h)) with
    | inl err => Some err
    | inr _ => None
    end
  else None.

(** What [io.ReadFull] returns at the start of a file. *)
Definition read_front (bs : list byte) (n : nat) : error + list byte :=
  if (n <=? List.length bs)%nat then inr (firstn n bs)
  else inl (match bs with [] => EOF | _ :: _ => ErrUnexpectedEOF end).


(** What acceptance by [elf.NewFile] says about the bytes of the file. *)
Record accepted_bytes (bs : list byte) (e : ElfFile.t) : Prop := {
  acc_ident : (16 <= List.length bs)%nat;
  acc_magic : bad_magic bs = false;
  acc_class : ElfFile.Class e = index bs EI_CLASS;
  acc_class_ok : ElfFile.Class e = ELFCLASS32 \/ ElfFile.Class e = ELFCLASS64;
  acc_data_ok : index bs EI_DATA = ELFDATA2LSB \/ index bs EI_DATA = ELFDATA2MSB;
  acc_order : ElfFile.Order e = order_of bs;
  acc_version : index bs EI_VERSION = EV_CURRENT;
  acc_header :
    ((if (ElfFile.Class e =? ELFCLASS32)%Z then Header32.size else Header64.size)
     <= List.length bs)%nat
}.


(** ** Lines and slices, for stating what is observed *)

(** The line feeds in a string. *)
Fixpoint count_LF (s : string) : nat :=
  match s with
  | EmptyString => 0
  | String c r => ((if Ascii.eqb c (ascii_of_nat 10) then 1 else 0) + count_LF r)%nat
  end.

(** The lines in a list of writes; an error line and a magic line are one
    line each. *)
Definition lines_written (out : list output) : nat :=
  fold_right (fun o n =>
                (match o with
                 | Text s => count_LF s
                 | ErrorText _ _ => 1
                 | MagicText _ => 1
                 end + n)%nat) 0%nat out.

(** [len(s)] of a byte slice that may be [nil]. *)
Definition len (s : option (list byte)) : nat :=
  match s with
  | None => 0
  | Some b => List.length b
  end.

(** ** Example inputs *)

(** A regular file with the given contents. *)
Definition regular_file (bs : list byte) : File :=
  {| stat_err := None; contents := inr bs |}.

(** A file system in which every path names one regular file. *)
Definition one_file (bs : list byte) : OS :=
  {| sys_stat := fun _ => inr {| IsDir := false |};
     sys_open := fun _ => inr (regular_file bs) |}.

(** A file system in which every path lies in a directory that may not be
    searched. *)
Definition no_access : OS :=
  {| sys_stat := fun name => inl (PathError "stat" name EACCES);
     sys_open := fun name => inl (PathError "open" name EACCES) |}.

(** A file system without files. *)
Definition empty_fs : OS :=
  {| sys_stat := fun name => inl (PathError "stat" name ENOENT);
     sys_open := fun name => inl (PathError "open" name ENOENT) |}.

(** A table loader that accepts the file and finds the given sections. *)
Definition tables_present (sections : list ElfSection.t)
  : ByteOrder -> Header -> option File -> error + list ElfSection.t :=
  fun _ _ _ => inr sections.

(** Header checks that find nothing to object to. *)
Definition checks_pass : ByteOrder -> Header -> option File -> option error :=
  fun _ _ _ => None.

(** The file header of [elf64_example]: ELF64, little-endian,
    [e_shoff = 0x1000], [e_shentsize = 0x40], [e_shnum = 5],
    [e_shstrndx = 4], no program headers. *)
Definition elf64_example_header : list byte :=
  [x7f; x45; x4c; x46; x02; x01; x01; x00;  x00; x00; x00; x00; x00; x00; x00; x00;
   x02; x00; x3e; x00; x01; x00; x00; x00;                  (* type, machine, version *)
   x00; x00; x00; x00; x00; x00; x00; x00;                  (* entry *)
   x00; x00; x00; x00; x00; x00; x00; x00;                  (* phoff *)
   x00; x10; x00; x00; x00; x00; x00; x00;                  (* shoff *)
   x00; x00; x00; x00; x40; x00; x38; x00;                  (* flags, ehsize, phentsize *)
   x00; x00; x40; x00; x05; x00; x04; x00].                 (* phnum, shentsize, shnum, shstrndx *)

(** The section names of [elf64_example]: the empty name at 0, [.text] at
    1, [.data] at 7, [.comment] at 13 and [.shstrtab] at 22. *)
Definition elf64_example_names : list byte :=
  [x00; x2e; x74; x65; x78; x74; x00; x2e;
   x64; x61; x74; x61; x00; x2e; x63; x6f;
   x6d; x6d; x65; x6e; x74; x00; x2e; x73;
   x68; x73; x74; x72; x74; x61; x62; x00].

(** The section header table of [elf64_example]. *)
Definition elf64_example_table : list byte :=
  [x00; x00; x00; x00; x00; x00; x00; x00;                  (* null: sh_name, sh_type *)
   x00; x00; x00; x00; x00; x00; x00; x00;                  (* sh_flags *)
   x00; x00; x00; x00; x00; x00; x00; x00;                  (* sh_addr *)
   x00; x00; x00; x00; x00; x00; x00; x00;                  (* sh_offset *)
   x00; x00; x00; x00; x00; x00; x00; x00;                  (* sh_size *)
   x00; x00; x00; x00; x00; x00; x00; x00;                  (* sh_link, sh_info *)
   x00; x00; x00; x00; x00; x00; x00; x00;                  (* sh_addralign *)
   x00; x00; x00; x00; x00; x00; x00; x00;                  (* sh_entsize *)
   x01; x00; x00; x00; x01; x00; x00; x00;                  (* .text: sh_name, sh_type *)
   x06; x00; x00; x00; x00; x00; x00; x00;                  (* sh_flags *)
   x00; x00; x00; x00; x00; x00; x00; x00;                  (* sh_addr *)
   x40; x00; x00; x00; x00; x00; x00; x00;                  (* sh_offset *)
   x04; x00; x00; x00; x00; x00; x00; x00;                  (* sh_size *)
   x00; x00; x00; x00; x00; x00; x00; x00;                  (* sh_link, sh_info *)
   x01; x00; x00; x00; x00; x00; x00; x00;                  (* sh_addralign *)
   x00; x00; x00; x00; x00; x00; x00; x00;                  (* sh_entsize *)
   x07; x00; x00; x00; x01; x00; x00; x00;                  (* .data: sh_name, sh_type *)
   x03; x00; x00; x00; x00; x00; x00; x00;                  (* sh_flags *)
   x00; x00; x00; x00; x00; x00; x00; x00;                  (* sh_addr *)
   x44; x00; x00; x00; x00; x00; x00; x00;                  (* sh_offset *)
   x02; x00; x00; x00; x00; x00; x00; x00;                  (* sh_size *)
   x00; x00; x00; x00; x00; x00; x00; x00;                  (* sh_link, sh_info *)
   x01; x00; x00; x00; x00; x00; x00; x00;                  (* sh_addralign *)
   x00; x00; x00; x00; x00; x00; x00; x00;                  (* sh_entsize *)
   x0d; x00; x00; x00; x01; x00; x00; x00;                  (* .comment: sh_name, sh_type *)
   x00; x00; x00; x00; x00; x00; x00; x00;                  (* sh_flags *)
   x00; x00; x00; x00; x00; x00; x00; x00;                  (* sh_addr *)
   x46; x00; x00; x00; x00; x00; x00; x00;                  (* sh_offset *)
   x01; x00; x00; x00; x00; x00; x00; x00;                  (* sh_size *)
   x00; x00; x00; x00; x00; x00; x00; x00;                  (* sh_link, sh_info *)
   x01; x00; x00; x00; x00; x00; x00; x00;                  (* sh_addralign *)
   x00; x00; x00; x00; x00; x00; x00; x00;                  (* sh_entsize *)
   x16; x00; x00; x00; x03; x00; x00; x00;                  (* .shstrtab: sh_name, sh_type *)
   x00; x00; x00; x00; x00; x00; x00; x00;                  (* sh_flags *)
   x00; x00; x00; x00; x00; x00; x00; x00;                  (* sh_addr *)
   x47; x00; x00; x00; x00; x00; x00; x00;                  (* sh_offset *)
   x20; x00; x00; x00; x00; x00; x00; x00;                  (* sh_size *)
   x00; x00; x00; x00; x00; x00; x00; x00;                  (* sh_link, sh_info *)
   x01; x00; x00; x00; x00; x00; x00; x00;                  (* sh_addralign *)
   x00; x00; x00; x00; x00; x00; x00; x00].                 (* sh_entsize *)

(** ELF64, little-endian, 4416 bytes: the file header, at 64 the four
    bytes of [.text], at 68 the two bytes of [.data], at 70 the byte of
    [.comment], at 71 the section names, and at 0x1000 the five section
    headers. *)
Definition elf64_example : list byte :=
  elf64_example_header
  ++ [x90; x90; x90; xc3] ++ [x01; x02] ++ [x00] ++ elf64_example_names
  ++ repeat x00 3993
  ++ elf64_example_table.

(** The header of [elf64_example] with the identification version byte 0
    instead of 1, and nothing after it. *)
Definition elf64_version0 : list byte :=
  [x7f; x45; x4c; x46; x02; x01; x00; x00;  x00; x00; x00; x00; x00; x00; x00; x00;
   x02; x00; x3e; x00; x01; x00; x00; x00;
   x00; x00; x00; x00; x00; x00; x00; x00;
   x00; x00; x00; x00; x00; x00; x00; x00;
   x00; x10; x00; x00; x00; x00; x00; x00;
   x00; x00; x00; x00; x40; x00; x38; x00;
   x00; x00; x40; x00; x05; x00; x04; x00].

(** ELF64, little-endian, 128 bytes: [e_shoff = 0xFFFFFFFFFFFFFFFF],
    [e_shentsize = 0x40], [e_shnum = 1], and after the file header one
    section header, of an unnamed section of 1 byte at offset 8. *)
Definition elf64_overflow : list byte :=
  [x7f; x45; x4c; x46; x02; x01; x01; x00;  x00; x00; x00; x00; x00; x00; x00; x00;
   x02; x00; x3e; x00; x01; x00; x00; x00;
   x00; x00; x00; x00; x00; x00; x00; x00;
   x00; x00; x00; x00; x00; x00; x00; x00;
   xff; xff; xff; xff; xff; xff; xff; xff;                  (* shoff *)
   x00; x00; x00; x00; x40; x00; x38; x00;
   x00; x00; x40; x00; x01; x00; x00; x00;                  (* phnum, shentsize, shnum, shstrndx *)
   x00; x00; x00; x00; x00; x00; x00; x00;                  (* sh_name, sh_type *)
   x00; x00; x00; x00; x00; x00; x00; x00;                  (* sh_flags *)
   x00; x00; x00; x00; x00; x00; x00; x00;                  (* sh_addr *)
   x08; x00; x00; x00; x00; x00; x00; x00;                  (* sh_offset *)
   x01; x00; x00; x00; x00; x00; x00; x00;                  (* sh_size *)
   x00; x00; x00; x00; x00; x00; x00; x00;                  (* sh_link, sh_info *)
   x00; x00; x00; x00; x00; x00; x00; x00;                  (* sh_addralign *)
   x00; x00; x00; x00; x00; x00; x00; x00].                 (* sh_entsize *)

(** ELF64, little-endian, 64 bytes: [e_shoff = 0x7FFFFFFFFFFFFFFF], the
    largest [int64], [e_shentsize = 0x40], [e_shnum = 1]. *)
Definition elf64_far_table : list byte :=
  [x7f; x45; x4c; x46; x02; x01; x01; x00;
   x00; x00; x00; x00; x00; x00; x00; x00;
   x02; x00; x3e; x00; x01; x00; x00; x00;                  (* type, machine, version *)
   x00; x00; x00; x00; x00; x00; x00; x00;                  (* entry *)
   x00; x00; x00; x00; x00; x00; x00; x00;                  (* phoff *)
   xff; xff; xff; xff; xff; xff; xff; x7f;                  (* shoff *)
   x00; x00; x00; x00; x40; x00; x38; x00;                  (* flags, ehsize, phentsize *)
   x00; x00; x40; x00; x01; x00; x00; x00].                 (* phnum, shentsize, shnum, shstrndx *)

(** ELF64, little-endian, without a section header table: [e_shoff = 0],
    [e_shnum = 0]. *)
Definition elf64_no_sections : list byte :=
  [x7f; x45; x4c; x46; x02; x01; x01; x00;  x00; x00; x00; x00; x00; x00; x00; x00;
   x02; x00; x3e; x00; x01; x00; x00; x00;
   x00; x00; x00; x00; x00; x00; x00; x00;
   x00; x00; x00; x00; x00; x00; x00; x00;
   x00; x00; x00; x00; x00; x00; x00; x00;
   x00; x00; x00; x00; x40; x00; x38; x00;
   x00; x00; x40; x00; x00; x00; x00; x00].

(** ELF64, little-endian, 64 bytes, identification version byte 0:
    [e_shoff = 0x1000], [e_shnum = 0]. *)
Definition elf64_stripped_version0 : list byte :=
  [x7f; x45; x4c; x46; x02; x01; x00; x00;
   x00; x00; x00; x00; x00; x00; x00; x00;
   x02; x00; x3e; x00; x01; x00; x00; x00;                  (* type, machine, version *)
   x00; x00; x00; x00; x00; x00; x00; x00;                  (* entry *)
   x00; x00; x00; x00; x00; x00; x00; x00;                  (* phoff *)
   x00; x10; x00; x00; x00; x00; x00; x00;                  (* shoff *)
   x00; x00; x00; x00; x40; x00; x38; x00;                  (* flags, ehsize, phentsize *)
   x00; x00; x40; x00; x00; x00; x00; x00].                 (* phnum, shentsize, shnum, shstrndx *)

(** ELF32, big-endian, 52 bytes: [e_shoff = 0xFFFF0000],
    [e_shentsize = 0x28], [e_shnum = 2], and nothing after the header. *)
Definition elf32_example : list byte :=
  [x7f; x45; x4c; x46; x01; x02; x01; x00;  x00; x00; x00; x00; x00; x00; x00; x00;
   x00; x02; x00; x14; x00; x00; x00; x01;                  (* type, machine, version *)
   x00; x00; x00; x00;                                      (* entry *)
   x00; x00; x00; x00;                                      (* phoff *)
   xff; xff; x00; x00;                                      (* shoff *)
   x00; x00; x00; x00; x00; x34; x00; x20;                  (* flags, ehsize, phentsize *)
   x00; x00; x00; x28; x00; x02; x00; x01].                 (* phnum, shentsize, shnum, shstrndx *)

(** ELF32, big-endian, 92 bytes: [e_shoff = 0x34], [e_shentsize = 0x28],
    [e_shnum = 1], [e_shstrndx = 0], and after the file header the one
    section header, all zero. *)
Definition elf32_small : list byte :=
  [x7f; x45; x4c; x46; x01; x02; x01; x00;  x00; x00; x00; x00; x00; x00; x00; x00;
   x00; x02; x00; x14; x00; x00; x00; x01;                  (* type, machine, version *)
   x00; x00; x00; x00;                                      (* entry *)
   x00; x00; x00; x00;                                      (* phoff *)
   x00; x00; x00; x34;                                      (* shoff *)
   x00; x00; x00; x00; x00; x34; x00; x20;                  (* flags, ehsize, phentsize *)
   x00; x00; x00; x28; x00; x01; x00; x00]                  (* phnum, shentsize, shnum, shstrndx *)
  ++ repeat x00 40.

(** The section of a section header that is all zero. *)
Definition null_section : ElfSection.t :=
  {| ElfSection.Name := ""; ElfSection.Offset := 0; ElfSection.Size := 0;
     ElfSection.Data := inr [] |}.

(** Four bytes that are not the magic number, and nothing else. *)
Definition four_bytes : list byte := [x61; x62; x63; x64].

(** Sixteen bytes that start like a script. *)
Definition script_start : list byte :=
  [x23; x21; x2f; x62; x69; x6e; x2f; x73;  x68; x0a; x65; x78; x69; x74; x0a; x0a].

(** Sixteen bytes with the magic number and the class byte 3. *)
Definition class3_ident : list byte :=
  [x7f; x45; x4c; x46; x03; x01; x01; x00;  x00; x00; x00; x00; x00; x00; x00; x00].

(** Sixteen bytes with the class byte 3 and without the magic number. *)
Definition class3_no_magic : list byte :=
  [x00; x00; x00; x00; x03; x01; x01; x00;  x00; x00; x00; x00; x00; x00; x00; x00].

(** A section [.text] of 4 bytes at offset 64. *)
Definition text_section : ElfSection.t :=
  {| ElfSection.Name := ".text";
     ElfSection.Offset := 64;
     ElfSection.Size := 4;
     ElfSection.Data := inr [x90; x90; x90; xc3] |}.

(** The sections of [elf64_example]. *)
Definition five_sections : list ElfSection.t :=
  [null_section;
   text_section;
   {| ElfSection.Name := ".data"; ElfSection.Offset := 68; ElfSection.Size := 2;
      ElfSection.Data := inr [x01; x02] |};
   {| ElfSection.Name := ".comment"; ElfSection.Offset := 70; ElfSection.Size := 1;
      ElfSection.Data := inr [x00] |};
   {| ElfSection.Name := ".shstrtab"; ElfSection.Offset := 71; ElfSection.Size := 32;
      ElfSection.Data := inr elf64_example_names |}].

(** Names of machines as [Machine.String()] gives them: an excerpt of the
    library's table, with the number itself for the machines left out. *)
Definition machine_names (m : Z) : string :=
  if m =? 3 then "EM_386"
  else if m =? 20 then "EM_PPC"
  else if m =? 40 then "EM_ARM"
  else if m =? 62 then "EM_X86_64"
  else if m =? 183 then "EM_AARCH64"
  else if m =? 243 then "EM_RISCV"
  else FormatInt m.

(** The section names of [elf64_two_text]: the empty name at 0, [.text]
    at 1 and [.shstrtab] at 7. *)
Definition elf64_two_text_names : list byte :=
  [x00; x2e; x74; x65; x78; x74; x00; x2e;
   x73; x68; x73; x74; x72; x74; x61; x62;
   x00].

(** ELF64, little-endian, 384 bytes, in which two sections are named
    [.text]: the file header, at 64 the four bytes of the first, at 96 the
    byte of the second, at 97 the section names, and at 0x80 the four
    section headers. *)
Definition elf64_two_text : list byte :=
  [x7f; x45; x4c; x46; x02; x01; x01; x00;
   x00; x00; x00; x00; x00; x00; x00; x00;
   x02; x00; x3e; x00; x01; x00; x00; x00;                  (* type, machine, version *)
   x00; x00; x00; x00; x00; x00; x00; x00;                  (* entry *)
   x00; x00; x00; x00; x00; x00; x00; x00;                  (* phoff *)
   x80; x00; x00; x00; x00; x00; x00; x00;                  (* shoff *)
   x00; x00; x00; x00; x40; x00; x38; x00;                  (* flags, ehsize, phentsize *)
   x00; x00; x40; x00; x04; x00; x03; x00]                  (* phnum, shentsize, shnum, shstrndx *)
  ++ [x90; x90; x90; xc3] ++ repeat x00 28 ++ [xc3] ++ elf64_two_text_names
  ++ repeat x00 14
  ++
  [x00; x00; x00; x00; x00; x00; x00; x00;                  (* null: sh_name, sh_type *)
   x00; x00; x00; x00; x00; x00; x00; x00;                  (* sh_flags *)
   x00; x00; x00; x00; x00; x00; x00; x00;                  (* sh_addr *)
   x00; x00; x00; x00; x00; x00; x00; x00;                  (* sh_offset *)
   x00; x00; x00; x00; x00; x00; x00; x00;                  (* sh_size *)
   x00; x00; x00; x00; x00; x00; x00; x00;                  (* sh_link, sh_info *)
   x00; x00; x00; x00; x00; x00; x00; x00;                  (* sh_addralign *)
   x00; x00; x00; x00; x00; x00; x00; x00;                  (* sh_entsize *)
   x01; x00; x00; x00; x01; x00; x00; x00;                  (* .text: sh_name, sh_type *)
   x06; x00; x00; x00; x00; x00; x00; x00;                  (* sh_flags *)
   x00; x00; x00; x00; x00; x00; x00; x00;                  (* sh_addr *)
   x40; x00; x00; x00; x00; x00; x00; x00;                  (* sh_offset *)
   x04; x00; x00; x00; x00; x00; x00; x00;                  (* sh_size *)
   x00; x00; x00; x00; x00; x00; x00; x00;                  (* sh_link, sh_info *)
   x01; x00; x00; x00; x00; x00; x00; x00;                  (* sh_addralign *)
   x00; x00; x00; x00; x00; x00; x00; x00;                  (* sh_entsize *)
   x01; x00; x00; x00; x01; x00; x00; x00;                  (* .text: sh_name, sh_type *)
   x06; x00; x00; x00; x00; x00; x00; x00;                  (* sh_flags *)
   x00; x00; x00; x00; x00; x00; x00; x00;                  (* sh_addr *)
   x60; x00; x00; x00; x00; x00; x00; x00;                  (* sh_offset *)
   x01; x00; x00; x00; x00; x00; x00; x00;                  (* sh_size *)
   x00; x00; x00; x00; x00; x00; x00; x00;                  (* sh_link, sh_info *)
   x01; x00; x00; x00; x00; x00; x00; x00;                  (* sh_addralign *)
   x00; x00; x00; x00; x00; x00; x00; x00;                  (* sh_entsize *)
   x07; x00; x00; x00; x03; x00; x00; x00;                  (* .shstrtab: sh_name, sh_type *)
   x00; x00; x00; x00; x00; x00; x00; x00;                  (* sh_flags *)
   x00; x00; x00; x00; x00; x00; x00; x00;                  (* sh_addr *)
   x61; x00; x00; x00; x00; x00; x00; x00;                  (* sh_offset *)
   x11; x00; x00; x00; x00; x00; x00; x00;                  (* sh_size *)
   x00; x00; x00; x00; x00; x00; x00; x00;                  (* sh_link, sh_info *)
   x01; x00; x00; x00; x00; x00; x00; x00;                  (* sh_addralign *)
   x00; x00; x00; x00; x00; x00; x00; x00].                 (* sh_entsize *)

(** The sections of [elf64_two_text]. *)
Definition two_text_sections : list ElfSection.t :=
  [null_section;
   text_section;
   {| ElfSection.Name := ".text"; ElfSection.Offset := 96; ElfSection.Size := 1;
      ElfSection.Data := inr [xc3] |};
   {| ElfSection.Name := ".shstrtab"; ElfSection.Offset := 97; ElfSection.Size := 17;
      ElfSection.Data := inr elf64_two_text_names |}].

(** The 64-bit example followed by sixteen bytes that are no part of it. *)
Definition elf64_with_trailer : list byte :=
  elf64_example ++ script_start.

(** * The program *)

Section Program.

(** [elf.NewFile] is modelled as the current releases of the Go library
    have it.  Two of its parts are parameters, for what they do is long and
    has changed from release to release.  [checkTables] is what comes
    between the check of the section header offset and the reading of the
    section header table: the checks of the other header fields, the
    loading of the program headers and, for a header that counts no
    sections at an offset that is not 0, the reading of the count from the
    first section header.  [loadTables] is what comes after the reading of
    the table: the section headers are decoded, the names are looked up,
    and the file is rejected or its sections are returned; for a header
    that counts no sections it also reads the table, if there is one. *)
Variable loadTables : ByteOrder -> Header -> option File -> error + list ElfSection.t.
Variable checkTables : ByteOrder -> Header -> option File -> option error.

(** [elf.NewFile(r)]: the 16 identification bytes are read and checked, in
    this order: magic number, class, data encoding, version.  Then the file
    header of the class is read at offset 0 and decoded in the byte order of
    the file, and its version field, cut to a byte, is compared.  A section
    header offset that is negative as an [int64] is refused; the tables are
    checked; the section header table, when the header counts sections, is
    read whole; and the tables are loaded. *)
Definition NewFile (r : option File) : error + ElfFile.t :=
  let sr := NewSectionReader r 0 maxint64 in
  match File_ReadAt r 16 0 with
  | (_, Some err) =>
    inl (FormatError 0 "cannot read ELF identifier" (ValError err))
  | (ident, None) =>
    if bad_magic ident then
      inl (FormatError 0 "bad magic number" (ValBytes (firstn 4 ident)))
    else
    let class := index ident EI_CLASS in
    if negb ((class =? ELFCLASS32) || (class =? ELFCLASS64)) then
      inl (FormatError 0 "unknown ELF class" (ValInt class))
    else
    let data := index ident EI_DATA in
    let bo :=
      if data =? ELFDATA2LSB then Some LittleEndian
      else if data =? ELFDATA2MSB then Some BigEndian
      else None in
    match bo with
    | None => inl (FormatError 0 "unknown ELF data encoding" (ValInt data))
    | Some bo =>
      let version := index ident EI_VERSION in
      if negb (version =? EV_CURRENT) then
        inl (FormatError 0 "unknown ELF version" (ValInt version))
      else
      match read_header sr class bo with
      | inl err => inl err
      | inr h =>
        let v := version_of h mod 2 ^ 8 in
        if negb (v =? version) then
          inl (FormatError 0 "mismatched ELF version" (ValInt v))
        else
        let shoff := to_int64 (section_header_offset h) in
        if shoff <? 0 then
          inl (FormatError 0 "invalid shoff" (ValInt shoff))
        else
        match checkTables bo h r with
        | Some err => inl err
        | None =>
        match read_section_table sr h with
        | Some err => inl err
        | None =>
        match loadTables bo h r with
        | inl err => inl err
        | inr sections =>
          inr {| ElfFile.Class := class;
                 ElfFile.Data := data;
                 ElfFile.Version := version;
                 ElfFile.OSABI := index ident EI_OSABI;
                 ElfFile.ABIVersion := index ident EI_ABIVERSION;
                 ElfFile.Order := bo;
                 ElfFile.Type_ := type_of h;
                 ElfFile.Machine := machine_of h;
                 ElfFile.Entry := entry_of h;
                 ElfFile.Sections := sections |}
        end end end
      end
    end
  end.

(** ** Package main *)

(** [fileExists]: [info] is [nil] whenever [os.Stat] failed, and
    [info.IsDir()] on a [nil] interface panics. *)
Definition fileExists (os : OS) (filename : string) : result bool :=
  let '(info, err) := os_Stat os filename in
  if os_IsNotExist err then Ret false
  else
    match info with
    | None => Panic NilDereference
    | Some info => Ret (negb (IsDir info))
    end.

(** [PrintError] writes to the error stream only for a non-nil error. *)
Definition PrintError (context : string) (e : option error) : list output :=
  match e with
  | Some e => [ErrorText context e]
  | None => []
  end.

(** [GetSectionData]: the slice ([None] is [nil]) and the error. *)
Definition GetSectionData (os : OS) (filepath name : string)
  : option (list byte) * option error :=
  let '(r, _) := os_Open os filepath in
  match NewFile r with
  | inl err => (None, Some err)
  | inr f =>
    match File_Section f name with
    | None => (None, None)
    | Some section =>
      match ElfSection.Data section with
      | inl err => (None, Some err)
      | inr data => (Some data, None)
      end
    end
  end.

(** [GetSectionOffsetAndLength]: offset, length and the error. *)
Definition GetSectionOffsetAndLength (os : OS) (filepath name : string)
  : Z * Z * option error :=
  let '(r, _) := os_Open os filepath in
  match NewFile r with
  | inl err => (0, 0, Some err)
  | inr f =>
    match File_Section f name with
    | None => (0, 0, None)
    | Some section => (ElfSection.Offset section, ElfSection.Size section, None)
    end
  end.

(** [Machine.String()], the name of a machine in the table [machineStrings]
    of the library. *)
Variable Machine_String : Z -> string.

(** [GetElfArchitecture]: the architecture and the error.  The four names
    of the [switch] are replaced, every other name is returned as the
    library gives it. *)
Definition GetElfArchitecture (os : OS) (filepath : string) : string * option error :=
  let '(r, _) := os_Open os filepath in
  match NewFile r with
  | inl err => ("", Some err)
  | inr f =>
    let arch := Machine_String (ElfFile.Machine f) in
    let arch :=
      if String.eqb arch "EM_X86_64" then "x86_64"
      else if String.eqb arch "EM_386" then "i686"
      else if String.eqb arch "EM_ARM" then "armhf"
      else if String.eqb arch "EM_AARCH64" then "aarch64"
      else arch in
    (arch, None)
  end.

(** [f.Stat()] through a possibly [nil] [*os.File]. *)
Definition File_Stat_opt (f : option File) : option error :=
  match f with
  | None => Some ErrInvalid
  | Some f => File_Stat f
  end.

(** The [switch e.Class.String()] of [CalculateElfSize]: the values of
    [shoff], [shentsize] and [shnum] it assigns, or what a failing case
    writes before it returns. *)
Definition read_geometry (f : option File) (e : ElfFile.t)
  : list output + Z * Z * Z :=
  let sr := NewSectionReader f 0 maxint64 in
  let class := Class_String (ElfFile.Class e) in
  if String.eqb class "ELFCLASS64" then
    let '(sr, err) := SectionReader_Seek sr 0 0 in
    match err with
    | Some _ => inl (PrintError "elfsize" err)
    | None =>
      match snd (Read_Header64 sr (ElfFile.Order e)) with
      | inl err => inl (PrintError "elfsize" (Some err))
      | inr hdr =>
        let shoff := to_int64 (Header64.Shoff hdr) in
        let shnum := to_int64 (Header64.Shnum hdr) in
        let shentsize := to_int64 (Header64.Shentsize hdr) in
        inr (shoff, shentsize, shnum)
      end
    end
  else if String.eqb class "ELFCLASS32" then
    let '(sr, err) := SectionReader_Seek sr 0 0 in
    match err with
    | Some _ => inl (PrintError "elfsize" err)
    | None =>
      match snd (Read_Header32 sr (ElfFile.Order e)) with
      | inl err => inl (PrintError "elfsize" (Some err))
      | inr hdr =>
        let shoff := to_int64 (Header32.Shoff hdr) in
        let shnum := to_int64 (Header32.Shnum hdr) in
        let shentsize := to_int64 (Header32.Shentsize hdr) in
        inr (shoff, shentsize, shnum)
      end
    end
  else inl [Text "unsupported elf architecture"].

(** [CalculateElfSize]: the [int64] it returns and what it wrote to the
    error stream on the way. *)
Definition CalculateElfSize (os : OS) (file : string) : Z * list output :=
  let '(f, err) := os_Open os file in
  let out := PrintError "ioReader" err in
  match err with
  | Some _ => (0, out)
  | None =>
  let err := File_Stat_opt f in
  let out := out ++ PrintError "ioReader" err in
  match err with
  | Some _ => (0, out)
  | None =>
  match NewFile f with
  | inl err => (0, out ++ PrintError "elfsize elf.NewFile" (Some err))
  | inr e =>
  let '(ident, err) := File_ReadAt f 16 0 in
  match err with
  | Some _ => (0, out ++ PrintError "elfsize read identifier" err)
  | None =>
  if bad_magic ident then (0, out ++ [MagicText (firstn 4 ident)])
  else
  match read_geometry f e with
  | inl written => (0, out ++ written)
  | inr (shoff, shentsize, shnum) =>
    let elfsize := int64_add shoff (int64_mul shentsize shnum) in
    (elfsize, out)
  end end end end end.

(** [main], run with [os.Args = prog :: args]. *)
Definition main (os : OS) (prog : string) (args : list string) : Outcome :=
  match args with
  | [] =>
    {| stdout := [];
       stderr := [Text ("USAGE: " ++ prog ++ " <path to ELF file>" ++ LF)%string;
                  Text ("    Print the size of an ELF file in bytes" ++ LF)%string;
                  Text ("    based on the information in the ELF header" ++ LF)%string];
       exit := Exited 1 |}
  | path :: _ =>
    match fileExists os path with
    | Panic p => {| stdout := []; stderr := []; exit := Panicked p |}
    | Ret false =>
      {| stdout := [];
         stderr := [Text (path ++ " does not exist, exiting" ++ LF)%string];
         exit := Exited 1 |}
    | Ret true =>
      let '(size, written) := CalculateElfSize os path in
      {| stdout := [(FormatInt size ++ LF)%string];
         stderr := written;
         exit := Exited 0 |}
    end
  end.

(** ** Facts about the library model *)

Lemma u8_range (b : byte) : 0 <= u8 b < 256.
Proof.
  unfold u8. pose proof (Byte.to_N_bounded b) as H. lia.
Qed.

Lemma index_firstn (bs : list byte) (n i : nat) :
  (i < n)%nat -> index (firstn n bs) i = index bs i.
Proof.
  intros Hi. unfold index. f_equal.
  revert bs i Hi. induction n as [|n IH]; intros bs i Hi; [lia|].
  destruct bs as [|b bs]; [now destruct i|].
  destruct i as [|i]; [reflexivity|]. simpl. apply IH. lia.
Qed.

Lemma bad_magic_firstn (bs : list byte) :
  bad_magic (firstn 16 bs) = bad_magic bs.
Proof.
  unfold bad_magic. now rewrite !index_firstn by lia.
Qed.

Lemma File_ReadAt_contents (f : File) (bs : list byte) (n : nat) :
  contents f = inr bs ->
  File_ReadAt (Some f) n 0 =
  (firstn n bs, if (List.length bs <? n)%nat then Some EOF else None).
Proof.
  intros Hbs. unfold File_ReadAt. rewrite Hbs.
  change (0 <? 0) with false. cbv iota.
  replace (if Z.of_nat (List.length bs) <=? 0 then []
           else firstn n (skipn (Z.to_nat 0) bs)) with (firstn n bs)
    by (destruct bs; [now rewrite firstn_nil|reflexivity]).
  rewrite length_firstn.
  destruct (Nat.ltb_spec (List.length bs) n) as [Hlt|Hge].
  - rewrite Nat.min_r by lia.
    destruct (Nat.ltb_spec (List.length bs) n); [reflexivity|lia].
  - rewrite Nat.min_l by lia. now rewrite Nat.ltb_irrefl.
Qed.

Lemma fresh_reader (r : option File) :
  NewSectionReader r 0 maxint64 =
  {| sr_r := r; sr_base := 0; sr_off := 0; sr_limit := maxint64 |}.
Proof. reflexivity. Qed.

Lemma Seek_start_fresh (r : option File) :
  SectionReader_Seek (NewSectionReader r 0 maxint64) 0 0 =
  (NewSectionReader r 0 maxint64, None).
Proof. reflexivity. Qed.

Lemma ReadFull_fresh (f : File) (bs : list byte) (n : nat) :
  contents f = inr bs ->
  (0 < n)%nat -> Z.of_nat n <= maxint64 ->
  snd (ReadFull (NewSectionReader (Some f) 0 maxint64) n) = read_front bs n.
Proof.
  intros Hbs Hpos Hmax. rewrite fresh_reader.
  unfold ReadFull, SectionReader_Read, read_front. cbn [sr_limit sr_off sr_r sr_base].
  replace (maxint64 <=? 0) with false by reflexivity.
  rewrite Z.sub_0_r.
  destruct (Z.ltb_spec maxint64 (Z.of_nat n)) as [Hlt|_]; [lia|].
  rewrite (File_ReadAt_contents f bs n Hbs).
  rewrite length_firstn.
  destruct (Nat.leb_spec n (List.length bs)) as [Hle|Hgt].
  - rewrite Nat.min_l by lia. rewrite Nat.leb_refl.
    destruct (Nat.ltb_spec (List.length bs) n); [lia|reflexivity].
  - rewrite Nat.min_r by lia.
    destruct (Nat.leb_spec n (List.length bs)); [lia|].
    destruct (Nat.ltb_spec (List.length bs) n); [|lia].
    destruct bs as [|b bs]; destruct n; simpl in *; try lia; reflexivity.
Qed.

(** ** What [elf.NewFile] and the header reads do on a readable file *)

Lemma Read_Header32_fresh (f : File) (bs : list byte) (o : ByteOrder) :
  contents f = inr bs ->
  snd (Read_Header32 (NewSectionReader (Some f) 0 maxint64) o) =
  match read_front bs Header32.size with
  | inl err => inl err
  | inr buf => inr (fst (Header32.decode o buf))
  end.
Proof.
  intros Hbs. unfold Read_Header32, binary_Read.
  pose proof (ReadFull_fresh f bs Header32.size Hbs) as H.
  destruct (ReadFull _ _) as [s' r]. simpl in H.
  rewrite <- H by (unfold Header32.size, maxint64; lia).
  now destruct r.
Qed.

Lemma Read_Header64_fresh (f : File) (bs : list byte) (o : ByteOrder) :
  contents f = inr bs ->
  snd (Read_Header64 (NewSectionReader (Some f) 0 maxint64) o) =
  match read_front bs Header64.size with
  | inl err => inl err
  | inr buf => inr (fst (Header64.decode o buf))
  end.
Proof.
  intros Hbs. unfold Read_Header64, binary_Read.
  pose proof (ReadFull_fresh f bs Header64.size Hbs) as H.
  destruct (ReadFull _ _) as [s' r]. simpl in H.
  rewrite <- H by (unfold Header64.size, maxint64; lia).
  now destruct r.
Qed.

Lemma ReadAt_fresh (r : option File) (n : nat) :
  Z.of_nat n <= maxint64 ->
  SectionReader_ReadAt (NewSectionReader r 0 maxint64) n 0 = File_ReadAt r n 0.
Proof.
  intros Hn. rewrite fresh_reader. unfold SectionReader_ReadAt.
  cbn [sr_limit sr_base sr_r].
  change ((0 <? 0) || (maxint64 - 0 <=? 0)) with false. cbv iota.
  change (0 + 0) with 0. rewrite Z.sub_0_r.
  destruct (Z.ltb_spec maxint64 (Z.of_nat n)); [lia|reflexivity].
Qed.

(** What [elf.NewFile] makes of the header of a readable file. *)
Lemma read_header_fresh (f : File) (bs : list byte) :
  contents f = inr bs ->
  read_header (NewSectionReader (Some f) 0 maxint64) (index bs EI_CLASS) (order_of bs)
  = if ((if (index bs EI_CLASS =? ELFCLASS32)%Z then Header32.size else Header64.size)
        <=? List.length bs)%nat
    then inr (file_header bs) else inl EOF.
Proof.
  intros Hbs. unfold read_header, file_header.
  rewrite !ReadAt_fresh by (unfold Header32.size, Header64.size, maxint64; lia).
  rewrite !(File_ReadAt_contents f bs _ Hbs).
  destruct (index bs EI_CLASS =? ELFCLASS32).
  - destruct (Nat.ltb_spec (List.length bs) Header32.size);
      destruct (Nat.leb_spec Header32.size (List.length bs)); try lia; reflexivity.
  - destruct (Nat.ltb_spec (List.length bs) Header64.size);
      destruct (Nat.leb_spec Header64.size (List.length bs)); try lia; reflexivity.
Qed.

(** Everything [elf.NewFile] has checked of a file it accepts, and what it
    returns for it. *)
Lemma NewFile_inr (f : File) (bs : list byte) (e : ElfFile.t) :
  contents f = inr bs ->
  NewFile (Some f) = inr e ->
  accepted_bytes bs e
  /\ 0 <= to_int64 (section_header_offset (file_header bs))
  /\ checkTables (order_of bs) (file_header bs) (Some f) = None
  /\ read_section_table (NewSectionReader (Some f) 0 maxint64) (file_header bs) = None
  /\ loadTables (order_of bs) (file_header bs) (Some f) = inr (ElfFile.Sections e)
  /\ ElfFile.Machine e = machine_of (file_header bs).
Proof.
  intros Hbs. unfold NewFile.
  rewrite (File_ReadAt_contents f bs 16 Hbs).
  destruct (Nat.ltb_spec (List.length bs) 16) as [|Hlen]; [discriminate|].
  rewrite bad_magic_firstn, !index_firstn
    by (unfold EI_CLASS, EI_DATA, EI_VERSION, EI_OSABI, EI_ABIVERSION; lia).
  destruct (bad_magic bs) eqn:Hmagic; [discriminate|].
  destruct (negb _) eqn:Hclass; [discriminate|].
  apply negb_false_iff, orb_true_iff in Hclass.
  assert (Hclass' : index bs EI_CLASS = ELFCLASS32 \/ index bs EI_CLASS = ELFCLASS64)
    by (destruct Hclass as [H|H]; apply Z.eqb_eq in H; auto).
  clear Hclass.
  assert (Hdata : (if index bs EI_DATA =? ELFDATA2LSB then Some LittleEndian
                   else if index bs EI_DATA =? ELFDATA2MSB then Some BigEndian
                   else None) = None
                  \/ (if index bs EI_DATA =? ELFDATA2LSB then Some LittleEndian
                      else if index bs EI_DATA =? ELFDATA2MSB then Some BigEndian
                      else None) = Some (order_of bs)
                     /\ (index bs EI_DATA = ELFDATA2LSB \/ index bs EI_DATA = ELFDATA2MSB)).
  { unfold order_of.
    destruct (Z.eqb_spec (index bs EI_DATA) ELFDATA2LSB) as [->|Hn]; [right; auto|].
    destruct (Z.eqb_spec (index bs EI_DATA) ELFDATA2MSB) as [->|Hn']; [right; auto|].
    now left. }
  destruct Hdata as [->|[-> Hd]]; [discriminate|].
  destruct (negb (index bs EI_VERSION =? EV_CURRENT)) eqn:Hver; [discriminate|].
  apply negb_false_iff, Z.eqb_eq in Hver.
  rewrite (read_header_fresh f bs Hbs).
  destruct (Nat.leb_spec
              (if index bs EI_CLASS =? ELFCLASS32 then Header32.size else Header64.size)
              (List.length bs)) as [Hhdr|]; [|discriminate].
  generalize dependent (file_header bs). intros h.
  destruct (negb (version_of h mod 2 ^ 8 =? index bs EI_VERSION)); [discriminate|].
  destruct (Z.ltb_spec (to_int64 (section_header_offset h)) 0) as [|Hshoff];
    [discriminate|].
  destruct (checkTables (order_of bs) h (Some f)) as [err|] eqn:Hcheck; [discriminate|].
  destruct (read_section_table _ h) as [err|] eqn:Htable; [discriminate|].
  destruct (loadTables (order_of bs) h (Some f)) as [err|sections] eqn:Hload;
    [discriminate|].
  intros Hnew. injection Hnew as <-.
  cbn [ElfFile.Sections ElfFile.Machine].
  repeat split; cbn [ElfFile.Class ElfFile.Order]; auto.
Qed.

Lemma NewFile_accepted (f : File) (bs : list byte) (e : ElfFile.t) :
  contents f = inr bs ->
  NewFile (Some f) = inr e ->
  accepted_bytes bs e.
Proof.
  intros Hbs Hnew. now apply (NewFile_inr f bs e Hbs Hnew).
Qed.

(** ** [int64] arithmetic *)

Lemma to_int64_range (z : Z) : - 2 ^ 63 <= to_int64 z < 2 ^ 63.
Proof.
  unfold to_int64. pose proof (Z.mod_pos_bound (z + 2 ^ 63) (2 ^ 64)). lia.
Qed.

Lemma to_int64_small (z : Z) : - 2 ^ 63 <= z < 2 ^ 63 -> to_int64 z = z.
Proof.
  intros H. unfold to_int64. rewrite Z.mod_small; lia.
Qed.

Lemma to_int64_congr (a b : Z) :
  a mod 2 ^ 64 = b mod 2 ^ 64 -> to_int64 a = to_int64 b.
Proof.
  intros H. unfold to_int64.
  rewrite (Z.add_mod a), (Z.add_mod b), H by lia. reflexivity.
Qed.

Lemma to_int64_mod (z : Z) : to_int64 z mod 2 ^ 64 = z mod 2 ^ 64.
Proof.
  unfold to_int64.
  rewrite <- (Z.add_0_r z) at 2.
  replace ((z + 2 ^ 63) mod 2 ^ 64 - 2 ^ 63)
    with ((z + 2 ^ 63) mod 2 ^ 64 + (- 2 ^ 63)) by lia.
  rewrite Z.add_mod_idemp_l by lia. f_equal. lia.
Qed.

(** The size as the program computes it is the exact sum, wrapped once. *)
Lemma elfsize_wraps_once (shoff shentsize shnum : Z) :
  int64_add (to_int64 shoff) (int64_mul (to_int64 shentsize) (to_int64 shnum))
  = to_int64 (shoff + shentsize * shnum).
Proof.
  unfold int64_add, int64_mul. apply to_int64_congr.
  rewrite Z.add_mod, !to_int64_mod by lia.
  rewrite (Z.mul_mod (to_int64 shentsize)), !to_int64_mod by lia.
  rewrite <- Z.mul_mod, <- Z.add_mod by lia. reflexivity.
Qed.

(** ** Ranges of decoded fields *)

Lemma lor_below (a b n : Z) :
  0 <= n -> 0 <= a < 2 ^ n -> 0 <= b < 2 ^ n -> 0 <= Z.lor a b < 2 ^ n.
Proof.
  intros Hn Ha Hb.
  assert (H0 : 0 <= Z.lor a b) by (apply Z.lor_nonneg; lia).
  split; [assumption|].
  destruct (Z.eq_dec n 0) as [->|Hn0].
  { assert (a = 0) as -> by lia. assert (b = 0) as -> by lia. reflexivity. }
  destruct (Z.eq_dec (Z.lor a b) 0) as [->|Hne]; [lia|].
  apply Z.log2_lt_pow2; [lia|].
  rewrite Z.log2_lor by lia.
  apply Z.max_lub_lt.
  - destruct (Z.eq_dec a 0) as [->|]; [simpl|apply Z.log2_lt_pow2]; lia.
  - destruct (Z.eq_dec b 0) as [->|]; [simpl|apply Z.log2_lt_pow2]; lia.
Qed.

Lemma le_uint_range (b : list byte) :
  0 <= le_uint b < 2 ^ (8 * Z.of_nat (List.length b)).
Proof.
  induction b as [|x r IH]; [simpl; lia|].
  cbn [le_uint List.length].
  replace (8 * Z.of_nat (S (List.length r))) with (8 * Z.of_nat (List.length r) + 8) by lia.
  pose proof (u8_range x) as Hx.
  assert (Hp : 2 ^ 8 <= 2 ^ (8 * Z.of_nat (List.length r) + 8))
    by (apply Z.pow_le_mono_r; lia).
  apply lor_below; [lia|lia|].
  rewrite Z.shiftl_mul_pow2 by lia.
  rewrite Z.pow_add_r by lia. nia.
Qed.

Lemma order_uint_range (o : ByteOrder) (buf : list byte) (n : nat) :
  0 <= order_uint o (firstn n buf) < 2 ^ (8 * Z.of_nat n).
Proof.
  assert (H : forall b : list byte, (List.length b <= n)%nat ->
                0 <= le_uint b < 2 ^ (8 * Z.of_nat n)).
  { intros b Hb. pose proof (le_uint_range b) as [H0 H1]. split; [assumption|].
    eapply Z.lt_le_trans; [exact H1|]. apply Z.pow_le_mono_r; lia. }
  destruct o; cbn [order_uint]; apply H.
  - apply firstn_le_length.
  - rewrite length_rev. apply firstn_le_length.
Qed.

Lemma Header32_ranges (o : ByteOrder) (buf : list byte) :
  let h := fst (Header32.decode o buf) in
  0 <= Header32.Shoff h < 2 ^ 32
  /\ 0 <= Header32.Shentsize h < 2 ^ 16
  /\ 0 <= Header32.Shnum h < 2 ^ 16.
Proof.
  unfold Header32.decode, dec_bind, dec_ret, dec_uint16, dec_uint32, dec_uint, dec_bytes.
  cbn [fst snd Header32.Shoff Header32.Shentsize Header32.Shnum].
  repeat split; try apply (order_uint_range o _ 4); try apply (order_uint_range o _ 2).
Qed.

Lemma Header64_ranges (o : ByteOrder) (buf : list byte) :
  let h := fst (Header64.decode o buf) in
  0 <= Header64.Shoff h < 2 ^ 64
  /\ 0 <= Header64.Shentsize h < 2 ^ 16
  /\ 0 <= Header64.Shnum h < 2 ^ 16.
Proof.
  unfold Header64.decode, dec_bind, dec_ret, dec_uint16, dec_uint32, dec_uint64, dec_uint, dec_bytes.
  cbn [fst snd Header64.Shoff Header64.Shentsize Header64.Shnum].
  repeat split; try apply (order_uint_range o _ 8); try apply (order_uint_range o _ 2).
Qed.

(** The fields sit where the ELF layouts put them. *)
Lemma Header32_layout (o : ByteOrder) (buf : list byte) :
  let h := fst (Header32.decode o buf) in
  Header32.Shoff h = order_uint o (firstn 4 (skipn 32 buf))
  /\ Header32.Shentsize h = order_uint o (firstn 2 (skipn 46 buf))
  /\ Header32.Shnum h = order_uint o (firstn 2 (skipn 48 buf)).
Proof.
  unfold Header32.decode, dec_bind, dec_ret, dec_uint16, dec_uint32, dec_uint, dec_bytes.
  cbn [fst snd Header32.Shoff Header32.Shentsize Header32.Shnum].
  rewrite !skipn_skipn. repeat split.
Qed.

Lemma Header64_layout (o : ByteOrder) (buf : list byte) :
  let h := fst (Header64.decode o buf) in
  Header64.Shoff h = order_uint o (firstn 8 (skipn 40 buf))
  /\ Header64.Shentsize h = order_uint o (firstn 2 (skipn 58 buf))
  /\ Header64.Shnum h = order_uint o (firstn 2 (skipn 60 buf)).
Proof.
  unfold Header64.decode, dec_bind, dec_ret, dec_uint16, dec_uint32, dec_uint64, dec_uint, dec_bytes.
  cbn [fst snd Header64.Shoff Header64.Shentsize Header64.Shnum].
  rewrite !skipn_skipn. repeat split.
Qed.

(** ** [CalculateElfSize] on a file that [elf.NewFile] accepts *)

Lemma Class_String_32 : Class_String ELFCLASS32 = "ELFCLASS32".
Proof. reflexivity. Qed.

Lemma Class_String_64 : Class_String ELFCLASS64 = "ELFCLASS64".
Proof. reflexivity. Qed.

Lemma read_geometry_accepted (f : File) (bs : list byte) (e : ElfFile.t) :
  contents f = inr bs ->
  accepted_bytes bs e ->
  read_geometry (Some f) e =
  inr (to_int64 (section_header_offset (file_header bs)),
       to_int64 (section_header_entry_size (file_header bs)),
       to_int64 (section_header_entry_count (file_header bs))).
Proof.
  intros Hbs [_ _ Hclass Hok _ Horder _ Hhdr].
  unfold read_geometry, file_header.
  rewrite Seek_start_fresh, Horder.
  rewrite (Read_Header32_fresh f bs _ Hbs), (Read_Header64_fresh f bs _ Hbs).
  unfold read_front. rewrite <- Hclass.
  destruct Hok as [Hc|Hc]; rewrite Hc in *.
  - rewrite Class_String_32.
    change (String.eqb "ELFCLASS32" "ELFCLASS64") with false.
    change (String.eqb "ELFCLASS32" "ELFCLASS32") with true.
    change (ELFCLASS32 =? ELFCLASS32) with true in *. cbv iota in *.
    destruct (Nat.leb_spec Header32.size (List.length bs)); [reflexivity|lia].
  - rewrite Class_String_64.
    change (String.eqb "ELFCLASS64" "ELFCLASS64") with true.
    change (ELFCLASS64 =? ELFCLASS32) with false in *. cbv iota in *.
    destruct (Nat.leb_spec Header64.size (List.length bs)); [reflexivity|lia].
Qed.

Lemma CalculateElfSize_accepted (os : OS) (file : string) (f : File)
  (bs : list byte) (e : ElfFile.t) :
  sys_open os file = inr f ->
  stat_err f = None ->
  contents f = inr bs ->
  NewFile (Some f) = inr e ->
  CalculateElfSize os file =
  (to_int64 (section_header_offset (file_header bs)
             + section_header_entry_size (file_header bs)
               * section_header_entry_count (file_header bs)), []).
Proof.
  intros Hopen Hstat Hbs Hnew.
  pose proof (NewFile_accepted f bs e Hbs Hnew) as Hacc.
  unfold CalculateElfSize, os_Open. rewrite Hopen.
  cbn [PrintError File_Stat_opt app]. unfold File_Stat. rewrite Hstat, Hnew.
  cbn [PrintError app].
  rewrite (File_ReadAt_contents f bs 16 Hbs).
  destruct (Nat.ltb_spec (List.length bs) 16) as [Hlt|_];
    [destruct Hacc; lia|].
  rewrite bad_magic_firstn, (acc_magic _ _ Hacc).
  rewrite (read_geometry_accepted f bs e Hbs Hacc).
  now rewrite elfsize_wraps_once.
Qed.

(** A file that opens and answers [Stat] but is rejected by [elf.NewFile]. *)
Lemma CalculateElfSize_rejected (os : OS) (file : string) (f : File) (err : error) :
  sys_open os file = inr f ->
  stat_err f = None ->
  NewFile (Some f) = inl err ->
  CalculateElfSize os file = (0, [ErrorText "elfsize elf.NewFile" err]).
Proof.
  intros Hopen Hstat Hnew.
  unfold CalculateElfSize, os_Open. rewrite Hopen.
  cbn [PrintError File_Stat_opt app]. unfold File_Stat. now rewrite Hstat, Hnew.
Qed.

(** ** What [elf.NewFile] rejects before it reads the header *)

Lemma NewFile_unreadable (f : File) (err : error) :
  contents f = inl err ->
  NewFile (Some f) = inl (FormatError 0 "cannot read ELF identifier" (ValError err)).
Proof.
  intros H. unfold NewFile, File_ReadAt. now rewrite H.
Qed.

Lemma NewFile_short (f : File) (bs : list byte) :
  contents f = inr bs ->
  (List.length bs < 16)%nat ->
  NewFile (Some f) = inl (FormatError 0 "cannot read ELF identifier" (ValError EOF)).
Proof.
  intros Hbs Hlen. unfold NewFile.
  rewrite (File_ReadAt_contents f bs 16 Hbs).
  destruct (Nat.ltb_spec (List.length bs) 16); [reflexivity|lia].
Qed.

Lemma NewFile_bad_magic (f : File) (bs : list byte) :
  contents f = inr bs ->
  (16 <= List.length bs)%nat ->
  bad_magic bs = true ->
  NewFile (Some f) = inl (FormatError 0 "bad magic number" (ValBytes (firstn 4 bs))).
Proof.
  intros Hbs Hlen Hmagic. unfold NewFile.
  rewrite (File_ReadAt_contents f bs 16 Hbs).
  destruct (Nat.ltb_spec (List.length bs) 16); [lia|].
  rewrite bad_magic_firstn, Hmagic, firstn_firstn. reflexivity.
Qed.

Lemma NewFile_unknown_class (f : File) (bs : list byte) :
  contents f = inr bs ->
  (16 <= List.length bs)%nat ->
  bad_magic bs = false ->
  index bs EI_CLASS <> ELFCLASS32 ->
  index bs EI_CLASS <> ELFCLASS64 ->
  NewFile (Some f) =
  inl (FormatError 0 "unknown ELF class" (ValInt (index bs EI_CLASS))).
Proof.
  intros Hbs Hlen Hmagic H32 H64. unfold NewFile.
  rewrite (File_ReadAt_contents f bs 16 Hbs).
  destruct (Nat.ltb_spec (List.length bs) 16); [lia|].
  rewrite bad_magic_firstn, Hmagic.
  rewrite !index_firstn by (unfold EI_CLASS; lia).
  destruct (Z.eqb_spec (index bs EI_CLASS) ELFCLASS32); [contradiction|].
  destruct (Z.eqb_spec (index bs EI_CLASS) ELFCLASS64); [contradiction|].
  reflexivity.
Qed.

(** ** The fields of a file header are unsigned and of their width *)

Lemma file_header_ranges (bs : list byte) :
  0 <= section_header_offset (file_header bs) < 2 ^ 64
  /\ 0 <= section_header_entry_size (file_header bs) < 2 ^ 16
  /\ 0 <= section_header_entry_count (file_header bs) < 2 ^ 16
  /\ (index bs EI_CLASS = ELFCLASS32 ->
      section_header_offset (file_header bs) < 2 ^ 32).
Proof.
  unfold file_header.
  destruct (Z.eqb_spec (index bs EI_CLASS) ELFCLASS32) as [Hc|Hc];
    cbn [section_header_offset section_header_entry_size section_header_entry_count].
  - pose proof (Header32_ranges (order_of bs) (firstn Header32.size bs)) as H.
    cbv zeta in H. lia.
  - pose proof (Header64_ranges (order_of bs) (firstn Header64.size bs)) as H.
    cbv zeta in H. intuition lia.
Qed.

(** ** Every failing path of [CalculateElfSize] returns 0 *)

Lemma CalculateElfSize_failure (os : OS) (file : string) :
  snd (CalculateElfSize os file) <> [] -> fst (CalculateElfSize os file) = 0.
Proof.
  unfold CalculateElfSize, os_Open.
  destruct (sys_open os file) as [err|f]; [reflexivity|].
  cbn [PrintError File_Stat_opt app]. unfold File_Stat.
  destruct (stat_err f); [reflexivity|].
  destruct (NewFile (Some f)) as [err|e]; [reflexivity|].
  destruct (File_ReadAt (Some f) 16 0) as [ident [err|]]; [reflexivity|].
  destruct (bad_magic ident); [reflexivity|].
  destruct (read_geometry (Some f) e) as [written|[[shoff shentsize] shnum]];
    [reflexivity|].
  cbn [PrintError app snd]. congruence.
Qed.

Lemma CalculateElfSize_open_error (os : OS) (file : string) (err : error) :
  sys_open os file = inl err ->
  CalculateElfSize os file = (0, [ErrorText "ioReader" err]).
Proof.
  intros H. unfold CalculateElfSize, os_Open. now rewrite H.
Qed.

Lemma CalculateElfSize_stat_error (os : OS) (file : string) (f : File) (err : error) :
  sys_open os file = inr f ->
  stat_err f = Some err ->
  CalculateElfSize os file = (0, [ErrorText "ioReader" err]).
Proof.
  intros H Hs. unfold CalculateElfSize, os_Open. rewrite H.
  cbn [PrintError File_Stat_opt app]. unfold File_Stat. now rewrite Hs.
Qed.

Lemma File_Section_absent (f : ElfFile.t) (name : string) :
  ~ In name (map ElfSection.Name (ElfFile.Sections f)) ->
  File_Section f name = None.
Proof.
  unfold File_Section. induction (ElfFile.Sections f) as [|s l IH]; [reflexivity|].
  cbn [map In find]. intros Hn.
  destruct (String.eqb_spec (ElfSection.Name s) name) as [Heq|_].
  - exfalso. apply Hn. now left.
  - apply IH. intros Hin. apply Hn. now right.
Qed.

(** A readable file is either accepted, and sized silently, or rejected by
    [elf.NewFile], and then 0 is returned with the library's error. *)
Lemma CalculateElfSize_readable (os : OS) (file : string) (f : File) (bs : list byte) :
  sys_open os file = inr f ->
  stat_err f = None ->
  contents f = inr bs ->
  CalculateElfSize os file =
  (to_int64 (section_header_offset (file_header bs)
             + section_header_entry_size (file_header bs)
               * section_header_entry_count (file_header bs)), [])
  \/ exists err, CalculateElfSize os file = (0, [ErrorText "elfsize elf.NewFile" err]).
Proof.
  intros Hopen Hstat Hbs.
  destruct (NewFile (Some f)) as [err|e] eqn:Hnew.
  - right. exists err. now apply CalculateElfSize_rejected with (f := f).
  - left. now apply CalculateElfSize_accepted with (f := f) (e := e).
Qed.

Lemma count_LF_app (a b : string) :
  count_LF (a ++ b) = (count_LF a + count_LF b)%nat.
Proof.
  induction a as [|c a IH]; [reflexivity|].
  cbn [append count_LF]. rewrite IH. lia.
Qed.

(** ** An accepted file holds its section header table *)

Lemma to_int64_nonneg (z : Z) :
  0 <= z < 2 ^ 64 -> 0 <= to_int64 z -> z < 2 ^ 63 /\ to_int64 z = z.
Proof.
  intros Hz Hnn.
  destruct (Z_lt_le_dec z (2 ^ 63)) as [Hlt|Hge].
  - split; [assumption|]. apply to_int64_small. lia.
  - exfalso.
    assert (Hw : to_int64 z = z - 2 ^ 64).
    { rewrite (to_int64_congr z (z - 2 ^ 64)).
      - apply to_int64_small. lia.
      - replace z with (z - 2 ^ 64 + 1 * 2 ^ 64) at 1 by lia.
        apply Z.mod_add. lia. }
    lia.
Qed.

(** A read through the reader of [elf.NewFile] that reports no error lies
    below the reader's limit. *)
Lemma ReadAt_within_limit (r : option File) (n : nat) (off : Z)
  (got : list byte) :
  SectionReader_ReadAt (NewSectionReader r 0 maxint64) n off = (got, None) ->
  0 <= off /\ off + Z.of_nat n <= maxint64.
Proof.
  rewrite fresh_reader. unfold SectionReader_ReadAt.
  cbn [sr_limit sr_base sr_r]. rewrite Z.sub_0_r, Z.add_0_r.
  destruct (Z.ltb_spec off 0) as [|Hoff]; [discriminate|].
  destruct (Z.leb_spec maxint64 off) as [|Hlim]; [discriminate|].
  cbn [orb].
  destruct (Z.ltb_spec (maxint64 - off) (Z.of_nat n)) as [|Hfit].
  - destruct (File_ReadAt r (Z.to_nat (maxint64 - off)) off) as [g [e|]];
      discriminate.
  - intros _. lia.
Qed.

Lemma read_chunks_beyond_limit (r : option File) (fuel : nat) (n off : Z) :
  0 <= off -> 0 < n -> maxint64 < off + n ->
  n <= Z.of_nat fuel * chunk ->
  exists err, read_chunks fuel (NewSectionReader r 0 maxint64) n off = inl err.
Proof.
  revert n off. induction fuel as [|fuel IH]; intros n off Hoff Hn Hover Hfuel.
  { cbn in Hfuel. lia. }
  cbn [read_chunks].
  destruct (Z.leb_spec n 0); [lia|].
  set (next := if chunk <? n then chunk else n).
  assert (Hnext : 0 < next <= n /\ (next = n \/ next = chunk)).
  { unfold next, chunk in *. destruct (Z.ltb_spec (10 * 1024 * 1024) n); lia. }
  destruct (SectionReader_ReadAt _ (Z.to_nat next) off) as [got [err|]] eqn:Hread.
  { now exists err. }
  apply ReadAt_within_limit in Hread. rewrite Z2Nat.id in Hread by lia.
  destruct (IH (n - next) (off + next)) as [err Herr]; [lia ..|].
  rewrite Herr. now exists err.
Qed.

(** No read of [saferio.ReadDataAt] reaches beyond the largest [int64]. *)
Lemma ReadDataAt_beyond_limit (r : option File) (n off : Z) :
  0 <= off -> 0 < n -> maxint64 < off + n ->
  exists err, ReadDataAt (NewSectionReader r 0 maxint64) n off = inl err.
Proof.
  intros Hoff Hn Hover. unfold ReadDataAt.
  destruct (Z.leb_spec (2 ^ 63) n); [now exists ErrUnexpectedEOF|].
  destruct (Z.ltb_spec n chunk) as [Hsmall|Hlarge].
  - destruct (SectionReader_ReadAt _ (Z.to_nat n) off) as [got [err|]] eqn:Hread.
    + destruct (Z.ltb_spec 0 n); [|lia].
      destruct err; eauto.
    + apply ReadAt_within_limit in Hread. rewrite Z2Nat.id in Hread by lia. lia.
  - apply read_chunks_beyond_limit; try lia.
    assert (Hc : 0 < chunk) by (unfold chunk; lia).
    rewrite Nat2Z.inj_add, Z2Nat.id by (apply Z.div_pos; lia).
    pose proof (Z.mul_succ_div_gt n chunk Hc). cbn [Z.of_nat]. lia.
Qed.

(** The section header table of an accepted file ends at or before the
    largest [int64], and so does the sum the size is computed from. *)
Lemma accepted_sum_fits (f : File) (bs : list byte) (e : ElfFile.t) :
  contents f = inr bs ->
  NewFile (Some f) = inr e ->
  section_header_offset (file_header bs) < 2 ^ 63
  /\ section_header_offset (file_header bs)
     + section_header_entry_size (file_header bs)
       * section_header_entry_count (file_header bs) <= maxint64.
Proof.
  intros Hbs Hnew.
  destruct (NewFile_inr f bs e Hbs Hnew) as (_ & Hshoff & _ & Htable & _).
  pose proof (file_header_ranges bs) as (Hoff & Hsize & Hnum & _).
  destruct (to_int64_nonneg _ Hoff Hshoff) as [Hlt Heq].
  split; [assumption|].
  unfold read_section_table in Htable. rewrite Heq in Htable.
  destruct (Z.ltb_spec 0 (section_header_entry_count (file_header bs))) as [Hpos|Hzero].
  - destruct (Z_le_gt_dec
                (section_header_offset (file_header bs)
                 + section_header_entry_size (file_header bs)
                   * section_header_entry_count (file_header bs)) maxint64)
      as [Hle|Hgt]; [assumption|exfalso].
    destruct (ReadDataAt_beyond_limit (Some f)
                (section_header_entry_count (file_header bs)
                 * section_header_entry_size (file_header bs))
                (section_header_offset (file_header bs))) as [err Herr];
      try lia.
    + unfold maxint64 in *. nia.
    + now rewrite Herr in Htable.
  - assert (section_header_entry_count (file_header bs) = 0) as -> by lia.
    unfold maxint64. lia.
Qed.

(** A file that opens is sized 0 with one diagnostic when [elf.NewFile]
    rejects it, whatever its [Stat] says. *)
Lemma CalculateElfSize_not_accepted (os : OS) (file : string) (f : File)
  (err : error) :
  sys_open os file = inr f ->
  NewFile (Some f) = inl err ->
  exists context err', CalculateElfSize os file = (0, [ErrorText context err']).
Proof.
  intros Hopen Hnew.
  destruct (stat_err f) as [serr|] eqn:Hstat.
  - exists "ioReader", serr. now apply CalculateElfSize_stat_error with (f := f).
  - exists "elfsize elf.NewFile", err. now apply CalculateElfSize_rejected with (f := f).
Qed.

(** * The claims *)

(** C1 (as amended).  For every input that [elf.NewFile] accepts, the size
    [CalculateElfSize] returns is [section_header_offset +
    section_header_entry_size * section_header_entry_count] of the file
    header, computed in 64-bit arithmetic (the exact value wrapped to
    [int64]), and nothing is written to the error stream; in particular an
    accepted 64-bit header with offset 0x1000, entry size 0x40 and entry
    count 5 gives 4416.  Acceptance asks for more than a valid magic number,
    a supported class and byte order and a readable header: the version
    bytes and the tables of the file are checked too. *)
Theorem size_of_accepted_file (os : OS) (file : string) (f : File)
  (bs : list byte) (e : ElfFile.t) :
  sys_open os file = inr f ->
  stat_err f = None ->
  contents f = inr bs ->
  NewFile (Some f) = inr e ->
  let h := file_header bs in
  CalculateElfSize os file =
  (to_int64 (section_header_offset h
             + section_header_entry_size h * section_header_entry_count h), [])
  /\ (index bs EI_CLASS = ELFCLASS64 ->
      section_header_offset h = 0x1000 ->
      section_header_entry_size h = 0x40 ->
      section_header_entry_count h = 5 ->
      CalculateElfSize os file = (4416, [])).
Proof.
  intros Hopen Hstat Hbs Hnew h.
  pose proof (CalculateElfSize_accepted os file f bs e Hopen Hstat Hbs Hnew) as H.
  fold h in H. split; [exact H|].
  intros _ Hoff Hsize Hnum. rewrite H, Hoff, Hsize, Hnum. reflexivity.
Qed.

(** C2 (as amended).  For any input whose first four bytes are not
    0x7F 'E' 'L' 'F' the size computation fails, whatever the rest of the
    input: [CalculateElfSize] returns 0 after [elf.NewFile] has reported
    "bad magic number" with those four bytes when 16 bytes can be read, and
    "cannot read ELF identifier", around the [io.EOF] of the read, when the
    input is shorter than that. *)
Theorem bad_magic_fails (os : OS) (file : string) (f : File) (bs : list byte) :
  sys_open os file = inr f ->
  stat_err f = None ->
  contents f = inr bs ->
  bad_magic bs = true ->
  CalculateElfSize os file =
  (0, [ErrorText "elfsize elf.NewFile"
         (if (List.length bs <? 16)%nat
          then FormatError 0 "cannot read ELF identifier" (ValError EOF)
          else FormatError 0 "bad magic number" (ValBytes (firstn 4 bs)))]).
Proof.
  intros Hopen Hstat Hbs Hmagic.
  apply (CalculateElfSize_rejected os file f _ Hopen Hstat).
  destruct (Nat.ltb_spec (List.length bs) 16) as [Hlt|Hge].
  - now apply NewFile_short with (bs := bs).
  - now apply NewFile_bad_magic.
Qed.

(** C3 (as amended).  For a 32-bit-class header of a file that
    [elf.NewFile] accepts, the three fields are widened to 64 bits before
    they are multiplied and added, so the size is their exact sum and no
    32-bit wrap-around occurs; with offset 0xFFFF0000, entry size 0x28 and
    entry count 2 it is exactly 0xFFFF0050.  (A file that is not accepted is
    sized 0, whatever its header holds.) *)
Theorem elf32_size_is_exact (os : OS) (file : string) (f : File)
  (bs : list byte) (e : ElfFile.t) :
  sys_open os file = inr f ->
  stat_err f = None ->
  contents f = inr bs ->
  NewFile (Some f) = inr e ->
  index bs EI_CLASS = ELFCLASS32 ->
  let h := file_header bs in
  CalculateElfSize os file =
  (section_header_offset h
   + section_header_entry_size h * section_header_entry_count h, [])
  /\ (section_header_offset h = 0xFFFF0000 ->
      section_header_entry_size h = 0x28 ->
      section_header_entry_count h = 2 ->
      CalculateElfSize os file = (0xFFFF0050, [])).
Proof.
  intros Hopen Hstat Hbs Hnew Hclass h.
  pose proof (CalculateElfSize_accepted os file f bs e Hopen Hstat Hbs Hnew) as H.
  fold h in H.
  pose proof (file_header_ranges bs) as (Hoff & Hsize & Hnum & H32).
  fold h in Hoff, Hsize, Hnum, H32. specialize (H32 Hclass).
  assert (Hexact : to_int64 (section_header_offset h
                     + section_header_entry_size h * section_header_entry_count h)
                   = section_header_offset h
                     + section_header_entry_size h * section_header_entry_count h).
  { apply to_int64_small. nia. }
  rewrite Hexact in H. split; [exact H|].
  intros Ho Hs Hn. rewrite H, Ho, Hs, Hn. reflexivity.
Qed.

(** C4 (as amended).  For every header of a file that [elf.NewFile]
    accepts and whose entry count is 0, the computed size equals the
    section header offset exactly.  The case is not treated apart: the
    size is what the arithmetic gives, 0 when the offset is 0.  (A file
    that is not accepted is sized 0, whatever its header holds.) *)
Theorem zero_entries_size_is_offset (os : OS) (file : string) (f : File)
  (bs : list byte) (e : ElfFile.t) :
  sys_open os file = inr f ->
  stat_err f = None ->
  contents f = inr bs ->
  NewFile (Some f) = inr e ->
  section_header_entry_count (file_header bs) = 0 ->
  CalculateElfSize os file = (section_header_offset (file_header bs), [])
  /\ (section_header_offset (file_header bs) = 0 ->
      CalculateElfSize os file = (0, [])).
Proof.
  intros Hopen Hstat Hbs Hnew Hnum.
  pose proof (CalculateElfSize_accepted os file f bs e Hopen Hstat Hbs Hnew) as H.
  rewrite Hnum, Z.mul_0_r, Z.add_0_r in H.
  pose proof (file_header_ranges bs) as (Hoff & _).
  destruct (accepted_sum_fits f bs e Hbs Hnew) as [Hlt _].
  rewrite to_int64_small in H by lia.
  split; [exact H|].
  intros H0. rewrite H, H0. reflexivity.
Qed.

(** C5 (as amended).  For every header whose fields make
    [section_header_offset + section_header_entry_size *
    section_header_entry_count] exceed the largest [int64], the size
    computation fails rather than return a wrapped-around value:
    [elf.NewFile] rejects the file, whose section header table would end
    beyond every offset that can be read, and [CalculateElfSize] returns 0
    after it has printed the error of the library.  That error is the
    library's own (an invalid offset, the end of the file), no overflow
    error: lines 193-196 add and multiply without a test. *)
Theorem overflow_is_rejected (os : OS) (file : string) (f : File) (bs : list byte) :
  sys_open os file = inr f ->
  stat_err f = None ->
  contents f = inr bs ->
  maxint64 < section_header_offset (file_header bs)
             + section_header_entry_size (file_header bs)
               * section_header_entry_count (file_header bs) ->
  exists err,
    NewFile (Some f) = inl err
    /\ CalculateElfSize os file = (0, [ErrorText "elfsize elf.NewFile" err]).
Proof.
  intros Hopen Hstat Hbs Hover.
  destruct (NewFile (Some f)) as [err|e] eqn:Hnew.
  - exists err. split; [reflexivity|].
    now apply CalculateElfSize_rejected with (f := f).
  - destruct (accepted_sum_fits f bs e Hbs Hnew) as [_ Hfits]. lia.
Qed.

(** C6 (as amended).  For every input of at least 16 bytes that begins with
    the magic number and whose class byte (identifier byte 4) is neither 1
    nor 2, the size computation fails without decoding either header
    layout: [elf.NewFile] reports "unknown ELF class" with that byte and
    [CalculateElfSize] returns 0. *)
Theorem unknown_class_fails (os : OS) (file : string) (f : File) (bs : list byte) :
  sys_open os file = inr f ->
  stat_err f = None ->
  contents f = inr bs ->
  (16 <= List.length bs)%nat ->
  bad_magic bs = false ->
  index bs EI_CLASS <> ELFCLASS32 ->
  index bs EI_CLASS <> ELFCLASS64 ->
  CalculateElfSize os file =
  (0, [ErrorText "elfsize elf.NewFile"
         (FormatError 0 "unknown ELF class" (ValInt (index bs EI_CLASS)))]).
Proof.
  intros Hopen Hstat Hbs Hlen Hmagic H32 H64.
  apply (CalculateElfSize_rejected os file f _ Hopen Hstat).
  now apply NewFile_unknown_class.
Qed.

(** C7 (as amended).  Invoked with no path argument, the program writes a
    usage message of three lines to the error stream (the line naming the
    program and two lines of description; a line more for each line feed in
    the program's name), writes nothing to standard output, and exits with
    status 1. *)
Theorem usage_without_path (os : OS) (prog : string) :
  main os prog [] =
  {| stdout := [];
     stderr := [Text ("USAGE: " ++ prog ++ " <path to ELF file>" ++ LF)%string;
                Text ("    Print the size of an ELF file in bytes" ++ LF)%string;
                Text ("    based on the information in the ELF header" ++ LF)%string];
     exit := Exited 1 |}
  /\ lines_written (stderr (main os prog [])) = (3 + count_LF prog)%nat.
Proof.
  split; [reflexivity|].
  cbn [main stderr lines_written fold_right].
  rewrite !count_LF_app.
  change (count_LF "USAGE: ") with 0%nat.
  change (count_LF " <path to ELF file>") with 0%nat.
  change (count_LF "    Print the size of an ELF file in bytes") with 0%nat.
  change (count_LF "    based on the information in the ELF header") with 0%nat.
  change (count_LF LF) with 1%nat.
  lia.
Qed.

(** C8.  On every input on which decoding fails (an open error, a stat
    error, a read error, an error of [elf.NewFile], a bad magic number, an
    unsupported class) [CalculateElfSize] returns the sentinel 0 after one
    line on the error stream, and the program prints 0 as the size and ends
    normally, as it does for a section header table of size 0. *)
Theorem failure_prints_zero (os : OS) (prog path : string) (rest : list string) :
  fileExists os path = Ret true ->
  (exists err, sys_open os path = inl err)
  \/ (exists f err, sys_open os path = inr f /\ stat_err f = Some err)
  \/ (exists f err, sys_open os path = inr f /\ contents f = inl err)
  \/ (exists f err, sys_open os path = inr f /\ NewFile (Some f) = inl err)
  \/ (exists f bs, sys_open os path = inr f /\ contents f = inr bs
                   /\ bad_magic bs = true)
  \/ (exists f bs, sys_open os path = inr f /\ contents f = inr bs
                   /\ index bs EI_CLASS <> ELFCLASS32
                   /\ index bs EI_CLASS <> ELFCLASS64) ->
  exists context err,
    CalculateElfSize os path = (0, [ErrorText context err])
    /\ main os prog (path :: rest) =
       {| stdout := [("0" ++ LF)%string];
          stderr := [ErrorText context err];
          exit := Exited 0 |}
    /\ forall (os' : OS) (path' : string) (f' : File) (bs' : list byte)
         (e' : ElfFile.t),
         fileExists os' path' = Ret true ->
         sys_open os' path' = inr f' ->
         stat_err f' = None ->
         contents f' = inr bs' ->
         NewFile (Some f') = inr e' ->
         section_header_offset (file_header bs')
         + section_header_entry_size (file_header bs')
           * section_header_entry_count (file_header bs') = 0 ->
         stdout (main os' prog (path' :: rest)) = stdout (main os prog (path :: rest))
         /\ exit (main os' prog (path' :: rest)) = exit (main os prog (path :: rest)).
Proof.
  intros Hexists Hcause.
  assert (Hzero : exists context err,
             CalculateElfSize os path = (0, [ErrorText context err])).
  { destruct Hcause as [(err & Hopen)|[(f & err & Hopen & Hstat)|[(f & err & Hopen & Hbs)
      |[(f & err & Hopen & Hnew)|[(f & bs & Hopen & Hbs & Hmagic)
      |(f & bs & Hopen & Hbs & H32 & H64)]]]]].
    - exists "ioReader", err. now apply CalculateElfSize_open_error.
    - exists "ioReader", err. now apply CalculateElfSize_stat_error with (f := f).
    - apply (CalculateElfSize_not_accepted os path f _ Hopen
               (NewFile_unreadable f err Hbs)).
    - now apply (CalculateElfSize_not_accepted os path f err).
    - destruct (NewFile (Some f)) as [err|e] eqn:Hnew.
      + now apply (CalculateElfSize_not_accepted os path f err).
      + pose proof (acc_magic _ _ (NewFile_accepted f bs e Hbs Hnew)). congruence.
    - destruct (NewFile (Some f)) as [err|e] eqn:Hnew.
      + now apply (CalculateElfSize_not_accepted os path f err).
      + destruct (NewFile_accepted f bs e Hbs Hnew) as [_ _ Hc [Hc'|Hc'] _ _ _ _];
          congruence. }
  destruct Hzero as (context & err & Hzero).
  exists context, err. split; [exact Hzero|].
  assert (Hmain : main os prog (path :: rest) =
                  {| stdout := [("0" ++ LF)%string];
                     stderr := [ErrorText context err];
                     exit := Exited 0 |})
    by (unfold main; now rewrite Hexists, Hzero).
  split; [exact Hmain|].
  intros os' path' f' bs' e' Hexists' Hopen' Hstat' Hbs' Hnew' Hsum.
  rewrite Hmain. unfold main. rewrite Hexists'.
  rewrite (CalculateElfSize_accepted os' path' f' bs' e' Hopen' Hstat' Hbs' Hnew'), Hsum.
  split; reflexivity.
Qed.

(** C9.  For every path on which [os.Stat] fails with an error other than
    does-not-exist, [fileExists] dereferences the [nil] [FileInfo] and
    panics instead of returning a boolean; the program then ends in that
    panic, having written no path-error message and without exit status
    1. *)
Theorem fileExists_panics (os : OS) (path : string) (err : error) :
  sys_stat os path = inl err ->
  os_IsNotExist (Some err) = false ->
  fileExists os path = Panic NilDereference
  /\ forall (prog : string) (rest : list string),
       main os prog (path :: rest) =
       {| stdout := []; stderr := []; exit := Panicked NilDereference |}.
Proof.
  intros Hstat Hne.
  assert (H : fileExists os path = Panic NilDereference).
  { unfold fileExists, os_Stat. now rewrite Hstat, Hne. }
  split; [exact H|]. intros prog rest. unfold main. now rewrite H.
Qed.

(** C10.  For every valid ELF file and every section name not present in
    it, [GetSectionData] returns [(nil, nil)] and
    [GetSectionOffsetAndLength] returns [(0, 0, nil)]: success with empty
    and zero values.  A file that does hold an empty section of that name
    at offset 0 gives the same offset, length and error, and a slice of the
    same length 0. *)
Theorem missing_section_is_success (os : OS) (filepath name : string) (f : ElfFile.t) :
  NewFile (fst (os_Open os filepath)) = inr f ->
  ~ In name (map ElfSection.Name (ElfFile.Sections f)) ->
  GetSectionData os filepath name = (None, None)
  /\ GetSectionOffsetAndLength os filepath name = (0, 0, None)
  /\ forall (os' : OS) (filepath' : string) (f' : ElfFile.t) (s : ElfSection.t),
       NewFile (fst (os_Open os' filepath')) = inr f' ->
       File_Section f' name = Some s ->
       ElfSection.Offset s = 0 ->
       ElfSection.Size s = 0 ->
       ElfSection.Data s = inr [] ->
       GetSectionOffsetAndLength os' filepath' name
       = GetSectionOffsetAndLength os filepath name
       /\ len (fst (GetSectionData os' filepath' name))
          = len (fst (GetSectionData os filepath name))
       /\ snd (GetSectionData os' filepath' name)
          = snd (GetSectionData os filepath name).
Proof.
  intros Hnew Habsent.
  pose proof (File_Section_absent f name Habsent) as Hnone.
  assert (Hdata : GetSectionData os filepath name = (None, None)).
  { unfold GetSectionData. destruct (os_Open os filepath) as [r err].
    cbn [fst] in Hnew. now rewrite Hnew, Hnone. }
  assert (Hoff : GetSectionOffsetAndLength os filepath name = (0, 0, None)).
  { unfold GetSectionOffsetAndLength. destruct (os_Open os filepath) as [r err].
    cbn [fst] in Hnew. now rewrite Hnew, Hnone. }
  split; [exact Hdata|]. split; [exact Hoff|].
  intros os' filepath' f' s Hnew' Hsome Ho Hs Hd.
  rewrite Hdata, Hoff.
  unfold GetSectionOffsetAndLength, GetSectionData.
  destruct (os_Open os' filepath') as [r' err']. cbn [fst] in Hnew'.
  rewrite Hnew', Hsome, Ho, Hs, Hd. repeat split.
Qed.

(** * Further properties of the program *)

(** X1.  For an accepted file whose exact sum fits an [int64], the size
    returned is that sum. *)
Theorem size_is_exact_when_it_fits (os : OS) (file : string) (f : File)
  (bs : list byte) (e : ElfFile.t) :
  sys_open os file = inr f ->
  stat_err f = None ->
  contents f = inr bs ->
  NewFile (Some f) = inr e ->
  section_header_offset (file_header bs)
  + section_header_entry_size (file_header bs)
    * section_header_entry_count (file_header bs) <= maxint64 ->
  CalculateElfSize os file =
  (section_header_offset (file_header bs)
   + section_header_entry_size (file_header bs)
     * section_header_entry_count (file_header bs), []).
Proof.
  intros Hopen Hstat Hbs Hnew Hfits.
  rewrite (CalculateElfSize_accepted os file f bs e Hopen Hstat Hbs Hnew).
  pose proof (file_header_ranges bs) as (Hoff & Hsize & Hnum & _).
  unfold maxint64 in Hfits. rewrite to_int64_small; [reflexivity|nia].
Qed.

(** X3.  When [os.Open] fails, the section accessors pass the [nil] file on
    to [elf.NewFile] and report what it answers, "cannot read ELF
    identifier" around "invalid argument", in place of the error of the
    open. *)
Theorem open_error_is_replaced (os : OS) (filepath name : string) (err : error) :
  sys_open os filepath = inl err ->
  GetSectionData os filepath name
  = (None, Some (FormatError 0 "cannot read ELF identifier" (ValError ErrInvalid)))
  /\ GetSectionOffsetAndLength os filepath name
     = (0, 0, Some (FormatError 0 "cannot read ELF identifier" (ValError ErrInvalid))).
Proof.
  intros Hopen.
  unfold GetSectionData, GetSectionOffsetAndLength, os_Open.
  rewrite Hopen. split; reflexivity.
Qed.

(** X4.  A path that does not exist, or that names a directory, is
    answered with the message "<path> does not exist, exiting" on the error
    stream and the exit status 1. *)
Theorem missing_path_exits_1 (os : OS) (prog path : string) (rest : list string) :
  (exists op p, sys_stat os path = inl (PathError op p ENOENT))
  \/ sys_stat os path = inr {| IsDir := true |} ->
  main os prog (path :: rest) =
  {| stdout := [];
     stderr := [Text (path ++ " does not exist, exiting" ++ LF)%string];
     exit := Exited 1 |}.
Proof.
  intros [(op & p & H)|H]; unfold main, fileExists, os_Stat; now rewrite H.
Qed.

(** X5.  For a regular file that [elf.NewFile] accepts, the program prints
    the size in decimal followed by a line feed, writes nothing to the
    error stream, and ends with status 0. *)
Theorem prints_size_of_accepted_file (os : OS) (prog path : string)
  (rest : list string) (f : File) (bs : list byte) (e : ElfFile.t) :
  sys_stat os path = inr {| IsDir := false |} ->
  sys_open os path = inr f ->
  stat_err f = None ->
  contents f = inr bs ->
  NewFile (Some f) = inr e ->
  main os prog (path :: rest) =
  {| stdout := [(FormatInt (to_int64 (section_header_offset (file_header bs)
                            + section_header_entry_size (file_header bs)
                              * section_header_entry_count (file_header bs)))
                 ++ LF)%string];
     stderr := [];
     exit := Exited 0 |}.
Proof.
  intros Hs Hopen Hstat Hbs Hnew.
  unfold main, fileExists, os_Stat. rewrite Hs. cbn [os_IsNotExist IsDir negb].
  now rewrite (CalculateElfSize_accepted os path f bs e Hopen Hstat Hbs Hnew).
Qed.

(** X6.  Whatever [CalculateElfSize] writes to the error stream is a
    single line of [PrintError]: its own test of the magic number and the
    default case of its switch on the class never fire, because
    [elf.NewFile] has rejected such files before. *)
Theorem only_PrintError_lines (os : OS) (file : string) :
  snd (CalculateElfSize os file) = []
  \/ exists context err, snd (CalculateElfSize os file) = [ErrorText context err].
Proof.
  destruct (sys_open os file) as [err|f] eqn:Hopen.
  { right. exists "ioReader", err.
    now rewrite (CalculateElfSize_open_error os file err Hopen). }
  destruct (stat_err f) as [err|] eqn:Hstat.
  { right. exists "ioReader", err.
    now rewrite (CalculateElfSize_stat_error os file f err Hopen Hstat). }
  destruct (contents f) as [err|bs] eqn:Hbs.
  - right. eexists _, _.
    now rewrite (CalculateElfSize_rejected os file f _ Hopen Hstat
                   (NewFile_unreadable f err Hbs)).
  - destruct (CalculateElfSize_readable os file f bs Hopen Hstat Hbs) as [H|[err H]];
      rewrite H; [now left|right; now exists "elfsize elf.NewFile", err].
Qed.

(** X7.  The three fields are read from the places the ELF layouts give
    them: bytes 32-35, 46-47 and 48-49 of an ELF32 header, bytes 40-47,
    58-59 and 60-61 of an ELF64 header, in the byte order of the file. *)
Theorem fields_at_ELF_offsets (bs : list byte) :
  let o := order_of bs in
  let word (at_ width : nat) := order_uint o (firstn width (skipn at_ bs)) in
  (index bs EI_CLASS = ELFCLASS32 ->
   section_header_offset (file_header bs) = word 32%nat 4%nat
   /\ section_header_entry_size (file_header bs) = word 46%nat 2%nat
   /\ section_header_entry_count (file_header bs) = word 48%nat 2%nat)
  /\ (index bs EI_CLASS = ELFCLASS64 ->
      section_header_offset (file_header bs) = word 40%nat 8%nat
      /\ section_header_entry_size (file_header bs) = word 58%nat 2%nat
      /\ section_header_entry_count (file_header bs) = word 60%nat 2%nat).
Proof.
  intros o word. unfold word, file_header. split; intros Hc; rewrite Hc.
  - change (ELFCLASS32 =? ELFCLASS32) with true. cbv iota.
    cbn [section_header_offset section_header_entry_size section_header_entry_count].
    pose proof (Header32_layout (order_of bs) (firstn Header32.size bs)) as H.
    cbv zeta in H. destruct H as (-> & -> & ->).
    rewrite !skipn_firstn_comm, !firstn_firstn. unfold Header32.size. repeat split.
  - change (ELFCLASS64 =? ELFCLASS32) with false. cbv iota.
    cbn [section_header_offset section_header_entry_size section_header_entry_count].
    pose proof (Header64_layout (order_of bs) (firstn Header64.size bs)) as H.
    cbv zeta in H. destruct H as (-> & -> & ->).
    rewrite !skipn_firstn_comm, !firstn_firstn. unfold Header64.size. repeat split.
Qed.

(** ** More facts about accepted files *)

Lemma Header32_Machine (o : ByteOrder) (buf : list byte) :
  Header32.Machine (fst (Header32.decode o buf))
  = order_uint o (firstn 2 (skipn 18 buf)).
Proof.
  unfold Header32.decode, dec_bind, dec_ret, dec_uint16, dec_uint32, dec_uint, dec_bytes.
  cbn [fst snd Header32.Machine]. now rewrite !skipn_skipn.
Qed.

Lemma Header64_Machine (o : ByteOrder) (buf : list byte) :
  Header64.Machine (fst (Header64.decode o buf))
  = order_uint o (firstn 2 (skipn 18 buf)).
Proof.
  unfold Header64.decode, dec_bind, dec_ret, dec_uint16, dec_uint32, dec_uint64,
    dec_uint, dec_bytes.
  cbn [fst snd Header64.Machine]. now rewrite !skipn_skipn.
Qed.

(** The machine [elf.NewFile] records is the machine field of the header. *)
Lemma NewFile_Machine (f : File) (bs : list byte) (e : ElfFile.t) :
  contents f = inr bs ->
  NewFile (Some f) = inr e ->
  ElfFile.Machine e = machine_of (file_header bs).
Proof.
  intros Hbs Hnew. now apply (NewFile_inr f bs e Hbs Hnew).
Qed.

Lemma index_app_front (bs extra : list byte) (i : nat) :
  (i < List.length bs)%nat -> index (bs ++ extra) i = index bs i.
Proof.
  intros Hi. unfold index. now rewrite app_nth1.
Qed.

Lemma firstn_app_front (bs extra : list byte) (n : nat) :
  (n <= List.length bs)%nat -> firstn n (bs ++ extra) = firstn n bs.
Proof.
  intros Hn. rewrite firstn_app.
  replace (n - List.length bs)%nat with 0%nat by lia.
  cbn [firstn]. apply app_nil_r.
Qed.

(** Bytes after the file header do not enter the header. *)
Lemma file_header_app (bs extra : list byte) (e : ElfFile.t) :
  accepted_bytes bs e ->
  file_header (bs ++ extra) = file_header bs.
Proof.
  intros [Hlen _ Hclass _ _ _ _ Hhdr].
  unfold file_header, order_of.
  rewrite !index_app_front by (unfold EI_CLASS, EI_DATA; lia).
  rewrite <- Hclass.
  destruct (ElfFile.Class e =? ELFCLASS32);
    now rewrite firstn_app_front by exact Hhdr.
Qed.

Lemma CalculateElfSize_range (os : OS) (file : string) :
  - 2 ^ 63 <= fst (CalculateElfSize os file) < 2 ^ 63.
Proof.
  unfold CalculateElfSize, os_Open.
  destruct (sys_open os file) as [err|f]; [cbn; lia|].
  cbn [PrintError File_Stat_opt app]. unfold File_Stat.
  destruct (stat_err f); [cbn; lia|].
  destruct (NewFile (Some f)) as [err|e]; [cbn; lia|].
  destruct (File_ReadAt (Some f) 16 0) as [ident [err|]]; [cbn; lia|].
  destruct (bad_magic ident); [cbn; lia|].
  destruct (read_geometry (Some f) e) as [written|[[shoff shentsize] shnum]];
    [cbn; lia|].
  cbn [fst]. unfold int64_add. apply to_int64_range.
Qed.

Lemma os_IsNotExist_true (err : error) :
  os_IsNotExist (Some err) = true <-> exists op p, err = PathError op p ENOENT.
Proof.
  split.
  - destruct err as [op p [] | | | | | | |]; cbn; try discriminate.
    intros _. now exists op, p.
  - intros (op & p & ->). reflexivity.
Qed.

Lemma find_first_of_name (before after : list ElfSection.t) (s : ElfSection.t)
  (name : string) :
  ~ In name (map ElfSection.Name before) ->
  ElfSection.Name s = name ->
  find (fun t => String.eqb (ElfSection.Name t) name) (before ++ s :: after) = Some s.
Proof.
  intros Hbefore Hs. induction before as [|t before IH]; cbn [app find].
  - now rewrite Hs, String.eqb_refl.
  - destruct (String.eqb_spec (ElfSection.Name t) name) as [Heq|_].
    + exfalso. apply Hbefore. now left.
    + apply IH. intros Hin. apply Hbefore. now right.
Qed.

(** * Properties of the remaining code *)

(** X8.  Bytes that follow the ELF payload do not change the size: a file
    and the same file with anything appended, both accepted by
    [elf.NewFile], are given the same size. *)
Theorem trailing_bytes_do_not_count (os os' : OS) (file file' : string)
  (f f' : File) (bs extra : list byte) (e e' : ElfFile.t) :
  sys_open os file = inr f ->
  stat_err f = None ->
  contents f = inr bs ->
  NewFile (Some f) = inr e ->
  sys_open os' file' = inr f' ->
  stat_err f' = None ->
  contents f' = inr (bs ++ extra) ->
  NewFile (Some f') = inr e' ->
  CalculateElfSize os' file' = CalculateElfSize os file.
Proof.
  intros Hopen Hstat Hbs Hnew Hopen' Hstat' Hbs' Hnew'.
  rewrite (CalculateElfSize_accepted os file f bs e Hopen Hstat Hbs Hnew).
  rewrite (CalculateElfSize_accepted os' file' f' _ e' Hopen' Hstat' Hbs' Hnew').
  now rewrite (file_header_app bs extra e (NewFile_accepted f bs e Hbs Hnew)).
Qed.


(** X10.  Every run of the program ends in one of three ways: with status
    1, nothing on standard output and a message on the error stream; in the
    panic of [fileExists], with nothing written; or with status 0 and one
    line on standard output, the decimal of an [int64], and then the error
    stream is empty unless that number is 0. *)
Theorem main_outcomes (os : OS) (prog : string) (args : list string) :
  let r := main os prog args in
  (exit r = Exited 1 /\ stdout r = [] /\ exists first rest, stderr r = first :: rest)
  \/ (exit r = Panicked NilDereference /\ stdout r = [] /\ stderr r = [])
  \/ (exit r = Exited 0
      /\ exists n, - 2 ^ 63 <= n < 2 ^ 63
                   /\ stdout r = [(FormatInt n ++ LF)%string]
                   /\ (stderr r = [] \/ n = 0)).
Proof.
  unfold main. destruct args as [|path rest].
  { left. cbn [exit stdout stderr]. repeat split. now eexists; eexists. }
  unfold fileExists, os_Stat.
  destruct (sys_stat os path) as [err|[dir]].
  - destruct (os_IsNotExist (Some err)).
    + left. cbn [exit stdout stderr]. repeat split. now eexists; eexists.
    + right. left. cbn [exit stdout stderr]. repeat split.
  - cbn [os_IsNotExist IsDir]. destruct dir; cbn [negb].
    + left. cbn [exit stdout stderr]. repeat split. now eexists; eexists.
    + right. right.
      pose proof (CalculateElfSize_range os path) as Hrange.
      pose proof (CalculateElfSize_failure os path) as Hfail.
      destruct (CalculateElfSize os path) as [size written].
      cbn [fst snd exit stdout stderr] in *.
      split; [reflexivity|]. exists size. split; [exact Hrange|].
      split; [reflexivity|].
      destruct written as [|o written]; [now left|right].
      apply Hfail. discriminate.
Qed.

(** X11.  A size other than 0 is returned only for a file that opens,
    answers [Stat], reads, begins with the magic number, names class 1 or 2,
    byte order 1 or 2 and version 1, and holds the whole header of its
    class; the size is then the wrapped sum of the header's fields. *)
Theorem nonzero_size_needs_ELF_header (os : OS) (file : string) :
  fst (CalculateElfSize os file) <> 0 ->
  exists (f : File) (bs : list byte),
    sys_open os file = inr f
    /\ stat_err f = None
    /\ contents f = inr bs
    /\ bad_magic bs = false
    /\ (index bs EI_CLASS = ELFCLASS32 \/ index bs EI_CLASS = ELFCLASS64)
    /\ (index bs EI_DATA = ELFDATA2LSB \/ index bs EI_DATA = ELFDATA2MSB)
    /\ index bs EI_VERSION = EV_CURRENT
    /\ ((if (index bs EI_CLASS =? ELFCLASS32)%Z then Header32.size else Header64.size)
        <= List.length bs)%nat
    /\ CalculateElfSize os file =
       (to_int64 (section_header_offset (file_header bs)
                  + section_header_entry_size (file_header bs)
                    * section_header_entry_count (file_header bs)), []).
Proof.
  intros Hnz.
  destruct (sys_open os file) as [err|f] eqn:Hopen.
  { rewrite (CalculateElfSize_open_error os file err Hopen) in Hnz. now elim Hnz. }
  destruct (stat_err f) as [err|] eqn:Hstat.
  { rewrite (CalculateElfSize_stat_error os file f err Hopen Hstat) in Hnz.
    now elim Hnz. }
  destruct (NewFile (Some f)) as [err|e] eqn:Hnew.
  { rewrite (CalculateElfSize_rejected os file f err Hopen Hstat Hnew) in Hnz.
    now elim Hnz. }
  destruct (contents f) as [err|bs] eqn:Hbs.
  { rewrite (NewFile_unreadable f err Hbs) in Hnew. discriminate. }
  pose proof (NewFile_accepted f bs e Hbs Hnew) as [H1 H2 H3 H4 H5 H6 H7 H8].
  exists f, bs. rewrite <- H3.
  repeat split; try assumption.
  now apply CalculateElfSize_accepted with (f := f) (e := e).
Qed.

(** X12.  For a file [elf.NewFile] accepts, the architecture is decided by
    the machine field of the header, bytes 18 and 19 in the byte order of
    the file: its library name, with EM_X86_64, EM_386, EM_ARM and
    EM_AARCH64 replaced by x86_64, i686, armhf and aarch64, and a nil
    error. *)
Theorem architecture_of_accepted_file (os : OS) (filepath : string) (f : File)
  (bs : list byte) (e : ElfFile.t) :
  sys_open os filepath = inr f ->
  contents f = inr bs ->
  NewFile (Some f) = inr e ->
  let name := Machine_String (order_uint (order_of bs) (firstn 2 (skipn 18 bs))) in
  GetElfArchitecture os filepath =
  (if String.eqb name "EM_X86_64" then "x86_64"
   else if String.eqb name "EM_386" then "i686"
   else if String.eqb name "EM_ARM" then "armhf"
   else if String.eqb name "EM_AARCH64" then "aarch64"
   else name, None).
Proof.
  intros Hopen Hbs Hnew name.
  pose proof (NewFile_Machine f bs e Hbs Hnew) as Hm.
  pose proof (NewFile_accepted f bs e Hbs Hnew) as [_ _ Hclass _ _ _ _ Hhdr].
  assert (Hfield : machine_of (file_header bs)
                   = order_uint (order_of bs) (firstn 2 (skipn 18 bs))).
  { unfold file_header. rewrite <- Hclass.
    destruct (ElfFile.Class e =? ELFCLASS32); cbn [machine_of].
    - rewrite Header32_Machine, skipn_firstn_comm, firstn_firstn. reflexivity.
    - rewrite Header64_Machine, skipn_firstn_comm, firstn_firstn. reflexivity. }
  unfold GetElfArchitecture, os_Open. rewrite Hopen, Hnew, Hm, Hfield.
  reflexivity.
Qed.

(** X13.  [GetElfArchitecture] never returns one of the four names its
    switch replaces, whatever the file and whatever the library's table of
    names. *)
Theorem architecture_is_never_a_replaced_name (os : OS) (filepath : string) :
  let arch := fst (GetElfArchitecture os filepath) in
  String.eqb arch "EM_X86_64" = false
  /\ String.eqb arch "EM_386" = false
  /\ String.eqb arch "EM_ARM" = false
  /\ String.eqb arch "EM_AARCH64" = false.
Proof.
  unfold GetElfArchitecture.
  destruct (os_Open os filepath) as [r _].
  destruct (NewFile r) as [err|f]; [repeat split|].
  cbn [fst]. set (name := Machine_String (ElfFile.Machine f)).
  destruct (String.eqb name "EM_X86_64") eqn:H1; [repeat split|].
  destruct (String.eqb name "EM_386") eqn:H2; [repeat split|].
  destruct (String.eqb name "EM_ARM") eqn:H3; [repeat split|].
  destruct (String.eqb name "EM_AARCH64") eqn:H4; [repeat split|].
  repeat split; assumption.
Qed.

(** X14.  When [os.Open] fails, [GetElfArchitecture] passes the [nil] file
    on to [elf.NewFile] and returns the empty string with what it answers,
    "cannot read ELF identifier" around "invalid argument", in place of the
    error of the open. *)
Theorem architecture_error (os : OS) (filepath : string) (err : error) :
  sys_open os filepath = inl err ->
  GetElfArchitecture os filepath
  = ("", Some (FormatError 0 "cannot read ELF identifier" (ValError ErrInvalid))).
Proof.
  intros Hopen. unfold GetElfArchitecture, os_Open. now rewrite Hopen.
Qed.

(** X15.  When several sections bear the name asked for, the first in the
    section header table is the one [GetSectionOffsetAndLength] and
    [GetSectionData] answer for. *)
Theorem first_section_of_a_name_wins (os : OS) (filepath name : string)
  (f : ElfFile.t) (before after : list ElfSection.t) (s : ElfSection.t) :
  NewFile (fst (os_Open os filepath)) = inr f ->
  ElfFile.Sections f = before ++ s :: after ->
  ~ In name (map ElfSection.Name before) ->
  ElfSection.Name s = name ->
  GetSectionOffsetAndLength os filepath name
  = (ElfSection.Offset s, ElfSection.Size s, None)
  /\ GetSectionData os filepath name
     = match ElfSection.Data s with
       | inl err => (None, Some err)
       | inr data => (Some data, None)
       end.
Proof.
  intros Hnew Hsec Hbefore Hs.
  assert (Hfind : File_Section f name = Some s).
  { unfold File_Section. rewrite Hsec. now apply find_first_of_name. }
  unfold GetSectionOffsetAndLength, GetSectionData.
  destruct (os_Open os filepath) as [r err]. cbn [fst] in Hnew.
  now rewrite Hnew, Hfind.
Qed.

(** X16.  Whenever [GetSectionData] returns data, there is a section of
    that name in the file whose [Data()] it is, and
    [GetSectionOffsetAndLength] returns the offset and size of that same
    section with a nil error. *)
Theorem data_and_offset_agree (os : OS) (filepath name : string) (data : list byte) :
  fst (GetSectionData os filepath name) = Some data ->
  exists (f : ElfFile.t) (s : ElfSection.t),
    NewFile (fst (os_Open os filepath)) = inr f
    /\ In s (ElfFile.Sections f)
    /\ ElfSection.Name s = name
    /\ ElfSection.Data s = inr data
    /\ GetSectionData os filepath name = (Some data, None)
    /\ GetSectionOffsetAndLength os filepath name
       = (ElfSection.Offset s, ElfSection.Size s, None).
Proof.
  unfold GetSectionData, GetSectionOffsetAndLength.
  destruct (os_Open os filepath) as [r err]. cbn [fst].
  destruct (NewFile r) as [nerr|f]; [discriminate|].
  destruct (File_Section f name) as [s|] eqn:Hfind; [|discriminate].
  destruct (ElfSection.Data s) as [derr|d] eqn:Hdata; [discriminate|].
  cbn [fst]. intros [= ->].
  unfold File_Section in Hfind. apply find_some in Hfind as [Hin Hname].
  apply String.eqb_eq in Hname.
  exists f, s. repeat split; assumption.
Qed.

(** X17.  [fileExists] answers [true] exactly for a path [os.Stat] finds
    and that is no directory, and [false] exactly for a directory or a path
    that does not exist. *)
Theorem fileExists_answers (os : OS) (path : string) :
  (fileExists os path = Ret true <-> sys_stat os path = inr {| IsDir := false |})
  /\ (fileExists os path = Ret false <->
      sys_stat os path = inr {| IsDir := true |}
      \/ exists op p, sys_stat os path = inl (PathError op p ENOENT)).
Proof.
  unfold fileExists, os_Stat.
  destruct (sys_stat os path) as [err|[dir]].
  - destruct (os_IsNotExist (Some err)) eqn:Hb.
    + apply os_IsNotExist_true in Hb as (op & p & ->).
      split; split; try discriminate.
      * intros _. right. now exists op, p.
      * reflexivity.
    + split; split; try discriminate.
      intros [H|(op & p & H)]; [discriminate|].
      injection H as ->. cbn in Hb. discriminate.
  - cbn [os_IsNotExist IsDir]. destruct dir; cbn [negb].
    + split; split; try discriminate; try reflexivity.
      * intros _. now left.
    + split; split; try discriminate; try reflexivity.
      intros [H|(op & p & H)]; discriminate.
Qed.

End Program.

(** * The claims at concrete inputs *)

(** C1: the 64-bit header of the claim, in a file that holds its tables. *)
Lemma size_of_accepted_file_witness :
  (exists e, NewFile (tables_present five_sections) checks_pass
               (Some (regular_file elf64_example)) = inr e)
  /\ index elf64_example EI_CLASS = ELFCLASS64
  /\ CalculateElfSize (tables_present five_sections) checks_pass
       (one_file elf64_example) "a.out"
     = (4416, []).
Proof.
  split; [eexists; vm_compute; reflexivity|].
  split; [reflexivity|].
  eapply (size_of_accepted_file (tables_present five_sections) checks_pass
            (one_file elf64_example) "a.out" (regular_file elf64_example)
            elf64_example);
    vm_compute; reflexivity.
Defined.

(** C1 fails as stated: this input has the magic number, class 2, byte order
    1 and all 64 bytes of its header, whose fields give 4416, and yet
    [elf.NewFile] rejects it for its version byte and [CalculateElfSize]
    returns 0. *)
Lemma well_formed_header_rejected :
  bad_magic elf64_version0 = false
  /\ index elf64_version0 EI_CLASS = ELFCLASS64
  /\ index elf64_version0 EI_DATA = ELFDATA2LSB
  /\ List.length elf64_version0 = Header64.size
  /\ section_header_offset (file_header elf64_version0)
     + section_header_entry_size (file_header elf64_version0)
       * section_header_entry_count (file_header elf64_version0) = 4416
  /\ forall loadTables checkTables,
       CalculateElfSize loadTables checkTables (one_file elf64_version0) "a.out"
       = (0, [ErrorText "elfsize elf.NewFile"
                (FormatError 0 "unknown ELF version" (ValInt 0))]).
Proof. repeat split. Qed.

(** C2: sixteen bytes of a script are reported as a bad magic number. *)
Lemma bad_magic_fails_witness :
  bad_magic script_start = true
  /\ CalculateElfSize (tables_present []) checks_pass (one_file script_start) "run.sh"
     = (0, [ErrorText "elfsize elf.NewFile"
              (FormatError 0 "bad magic number" (ValBytes [x23; x21; x2f; x62]))]).
Proof.
  split; [reflexivity|].
  exact (bad_magic_fails (tables_present []) checks_pass (one_file script_start)
           "run.sh" (regular_file script_start) script_start
           eq_refl eq_refl eq_refl eq_refl).
Defined.

(** C2 fails as stated: an input of four bytes that are not the magic
    number is reported as an identifier that cannot be read, around the
    end of the input, not as a bad magic number. *)
Lemma short_input_has_no_identifier :
  bad_magic four_bytes = true
  /\ forall loadTables checkTables,
       CalculateElfSize loadTables checkTables (one_file four_bytes) "a.out"
       = (0, [ErrorText "elfsize elf.NewFile"
                (FormatError 0 "cannot read ELF identifier" (ValError EOF))]).
Proof. repeat split. Qed.

(** C3: a 32-bit file of 92 bytes, the file header and one section
    header. *)
Lemma elf32_size_is_exact_witness :
  (exists e, NewFile (tables_present [null_section]) checks_pass
               (Some (regular_file elf32_small)) = inr e)
  /\ index elf32_small EI_CLASS = ELFCLASS32
  /\ CalculateElfSize (tables_present [null_section]) checks_pass
       (one_file elf32_small) "a.out"
     = (0x34 + 0x28 * 1, []).
Proof.
  split; [eexists; vm_compute; reflexivity|].
  split; [reflexivity|].
  eapply (elf32_size_is_exact (tables_present [null_section]) checks_pass
            (one_file elf32_small) "a.out" (regular_file elf32_small)
            elf32_small);
    vm_compute; reflexivity.
Defined.

(** C3 fails as stated: the 32-bit header of the claim, with offset
    0xFFFF0000, entry size 0x28 and entry count 2, is no file that
    [elf.NewFile] accepts when nothing follows it, and its size is computed
    as 0: where the checks of the header pass, the read of the section
    header table ends the file. *)
Lemma claimed_header_alone_is_rejected :
  index elf32_example EI_CLASS = ELFCLASS32
  /\ section_header_offset (file_header elf32_example) = 0xFFFF0000
  /\ section_header_entry_size (file_header elf32_example) = 0x28
  /\ section_header_entry_count (file_header elf32_example) = 2
  /\ (forall loadTables,
        CalculateElfSize loadTables checks_pass (one_file elf32_example) "a.out"
        = (0, [ErrorText "elfsize elf.NewFile" EOF]))
  /\ forall loadTables checkTables,
       exists err,
         CalculateElfSize loadTables checkTables (one_file elf32_example) "a.out"
         = (0, [ErrorText "elfsize elf.NewFile" err]).
Proof.
  do 4 (split; [reflexivity|]).
  split; [intros loadTables; vm_compute; reflexivity|].
  intros loadTables checkTables.
  assert (H : exists err,
             NewFile loadTables checkTables (Some (regular_file elf32_example))
             = inl err).
  { vm_compute.
    match goal with
    | |- context [checkTables ?bo ?h ?r] =>
      destruct (checkTables bo h r) as [err|]
    end; eexists; reflexivity. }
  destruct H as [err H]. exists err.
  exact (CalculateElfSize_rejected loadTables checkTables (one_file elf32_example)
           "a.out" (regular_file elf32_example) err eq_refl eq_refl H).
Qed.

(** C4: a header without section headers, at offset 0. *)
Lemma zero_entries_size_is_offset_witness :
  section_header_entry_count (file_header elf64_no_sections) = 0
  /\ section_header_offset (file_header elf64_no_sections) = 0
  /\ CalculateElfSize (tables_present []) checks_pass (one_file elf64_no_sections)
       "a.out"
     = (0, []).
Proof.
  split; [reflexivity|]. split; [reflexivity|].
  eapply (zero_entries_size_is_offset (tables_present []) checks_pass
            (one_file elf64_no_sections) "a.out" (regular_file elf64_no_sections)
            elf64_no_sections);
    vm_compute; reflexivity.
Defined.

(** C4 fails as stated: this header has an entry count of 0 and the offset
    0x1000, and the size computed is 0, not 0x1000, because [elf.NewFile]
    rejects the file for its version byte. *)
Lemma zero_entries_rejected_file :
  section_header_entry_count (file_header elf64_stripped_version0) = 0
  /\ section_header_offset (file_header elf64_stripped_version0) = 0x1000
  /\ forall loadTables checkTables,
       CalculateElfSize loadTables checkTables (one_file elf64_stripped_version0)
         "a.out"
       = (0, [ErrorText "elfsize elf.NewFile"
                (FormatError 0 "unknown ELF version" (ValInt 0))]).
Proof. repeat split. Qed.

(** C5: the largest [int64] as offset and one entry of 64 bytes; the read
    of the section header table fails at the limit of the reader. *)
Lemma overflow_is_rejected_witness :
  section_header_offset (file_header elf64_far_table)
  + section_header_entry_size (file_header elf64_far_table)
    * section_header_entry_count (file_header elf64_far_table) = 2 ^ 63 + 63
  /\ CalculateElfSize (tables_present []) checks_pass (one_file elf64_far_table)
       "a.out"
     = (0, [ErrorText "elfsize elf.NewFile" EOF]).
Proof.
  split; [reflexivity|].
  destruct (overflow_is_rejected (tables_present []) checks_pass
              (one_file elf64_far_table) "a.out" (regular_file elf64_far_table)
              elf64_far_table eq_refl eq_refl eq_refl eq_refl)
    as (err & Hnew & Hsize).
  vm_compute in Hnew. injection Hnew as <-. exact Hsize.
Defined.

(** C5 fails as stated: the fields of this header add up to 2^64 + 63,
    beyond every 64-bit integer, and the failure of the size computation is
    the "invalid shoff" of [elf.NewFile], which has read the offset as the
    [int64] -1; no overflow of the sum is detected or reported. *)
Lemma overflow_is_reported_as_invalid_shoff :
  section_header_offset (file_header elf64_overflow)
  + section_header_entry_size (file_header elf64_overflow)
    * section_header_entry_count (file_header elf64_overflow) = 2 ^ 64 + 63
  /\ forall loadTables checkTables,
       CalculateElfSize loadTables checkTables (one_file elf64_overflow) "a.out"
       = (0, [ErrorText "elfsize elf.NewFile"
                (FormatError 0 "invalid shoff" (ValInt (-1)))]).
Proof. repeat split. Qed.

(** C6: the magic number followed by the class byte 3. *)
Lemma unknown_class_fails_witness :
  index class3_ident EI_CLASS = 3
  /\ CalculateElfSize (tables_present []) checks_pass (one_file class3_ident) "a.out"
     = (0, [ErrorText "elfsize elf.NewFile"
              (FormatError 0 "unknown ELF class" (ValInt 3))]).
Proof.
  split; [reflexivity|].
  refine (unknown_class_fails (tables_present []) checks_pass (one_file class3_ident)
            "a.out" (regular_file class3_ident) class3_ident
            eq_refl eq_refl eq_refl _ eq_refl _ _).
  - exact (le_n 16).
  - vm_compute. discriminate.
  - vm_compute. discriminate.
Defined.

(** C6 fails as stated: with the class byte 3 and no magic number, the
    failure reported is the bad magic number, not the class. *)
Lemma bad_magic_hides_unknown_class :
  index class3_no_magic EI_CLASS = 3
  /\ forall loadTables checkTables,
       CalculateElfSize loadTables checkTables (one_file class3_no_magic) "a.out"
       = (0, [ErrorText "elfsize elf.NewFile"
                (FormatError 0 "bad magic number" (ValBytes [x00; x00; x00; x00]))]).
Proof. repeat split. Qed.

(** C7 fails as stated: the usage message has three lines, not two. *)
Lemma usage_has_three_lines :
  lines_written (stderr (main (tables_present []) checks_pass (one_file [])
                           "elfsize" [])) = 3%nat
  /\ exit (main (tables_present []) checks_pass (one_file []) "elfsize" []) = Exited 1
  /\ forall loadTables checkTables os,
       stderr (main loadTables checkTables os "elfsize" []) =
       [Text ("USAGE: elfsize <path to ELF file>" ++ LF)%string;
        Text ("    Print the size of an ELF file in bytes" ++ LF)%string;
        Text ("    based on the information in the ELF header" ++ LF)%string].
Proof. repeat split. Qed.

(** C8: a file of four bytes, which has no magic number, is printed as
    size 0, as is the file without section headers. *)
Lemma failure_prints_zero_witness :
  fileExists (one_file four_bytes) "a.out" = Ret true
  /\ bad_magic four_bytes = true
  /\ main (tables_present []) checks_pass (one_file four_bytes) "elfsize"
       ["a.out"%string]
     = {| stdout := [("0" ++ LF)%string];
          stderr := [ErrorText "elfsize elf.NewFile"
                       (FormatError 0 "cannot read ELF identifier" (ValError EOF))];
          exit := Exited 0 |}
  /\ stdout (main (tables_present []) checks_pass (one_file elf64_no_sections)
               "elfsize" ["a.out"%string])
     = stdout (main (tables_present []) checks_pass (one_file four_bytes)
                 "elfsize" ["a.out"%string]).
Proof.
  split; [reflexivity|]. split; [reflexivity|].
  destruct (failure_prints_zero (tables_present []) checks_pass
              (one_file four_bytes) "elfsize" "a.out" [] eq_refl)
    as (context & err & Hsize & Hmain & Hsame).
  - do 4 right. left.
    exists (regular_file four_bytes), four_bytes. repeat split.
  - vm_compute in Hsize. injection Hsize as <- <-.
    split; [exact Hmain|].
    eapply (Hsame (one_file elf64_no_sections) "a.out"
              (regular_file elf64_no_sections) elf64_no_sections);
      vm_compute; reflexivity.
Defined.

(** C9: a path in a directory that may not be searched. *)
Lemma fileExists_panics_witness :
  os_IsNotExist (Some (PathError "stat" "/root/a.out" EACCES)) = false
  /\ fileExists no_access "/root/a.out" = Panic NilDereference
  /\ main (tables_present []) checks_pass no_access "elfsize" ["/root/a.out"%string]
     = {| stdout := []; stderr := []; exit := Panicked NilDereference |}.
Proof.
  split; [reflexivity|].
  pose proof (fileExists_panics (tables_present []) checks_pass no_access
                "/root/a.out" (PathError "stat" "/root/a.out" EACCES)
                eq_refl eq_refl) as [H1 H2].
  split; [exact H1|exact (H2 "elfsize" [])].
Defined.

(** C10: the section [.note] is absent from a file with five sections. *)
Lemma missing_section_is_success_witness :
  GetSectionData (tables_present five_sections) checks_pass (one_file elf64_example)
    "a.out" ".note" = (None, None)
  /\ GetSectionOffsetAndLength (tables_present five_sections) checks_pass
       (one_file elf64_example) "a.out" ".note" = (0, 0, None).
Proof.
  assert (Hnew : exists e,
             NewFile (tables_present five_sections) checks_pass
               (fst (os_Open (one_file elf64_example) "a.out")) = inr e
             /\ ElfFile.Sections e = five_sections)
    by (eexists; split; vm_compute; reflexivity).
  destruct Hnew as (e & Hnew & Hsec).
  destruct (missing_section_is_success (tables_present five_sections) checks_pass
              (one_file elf64_example) "a.out" ".note" e Hnew) as (H1 & H2 & _).
  - rewrite Hsec. cbn. intuition discriminate.
  - split; assumption.
Defined.

(** X1: the sum 4416 fits. *)
Lemma size_is_exact_when_it_fits_witness :
  CalculateElfSize (tables_present five_sections) checks_pass
    (one_file elf64_example) "a.out"
  = (0x1000 + 0x40 * 5, []).
Proof.
  eapply (size_is_exact_when_it_fits (tables_present five_sections) checks_pass
            (one_file elf64_example) "a.out" (regular_file elf64_example)
            elf64_example);
    vm_compute; try reflexivity; discriminate.
Defined.

(** X3: a file that may not be opened. *)
Lemma open_error_is_replaced_witness :
  GetSectionData (tables_present []) checks_pass no_access "/root/a.out" ".text"
  = (None, Some (FormatError 0 "cannot read ELF identifier" (ValError ErrInvalid)))
  /\ GetSectionOffsetAndLength (tables_present []) checks_pass no_access
       "/root/a.out" ".text"
     = (0, 0, Some (FormatError 0 "cannot read ELF identifier" (ValError ErrInvalid))).
Proof.
  exact (open_error_is_replaced (tables_present []) checks_pass no_access
           "/root/a.out" ".text" (PathError "open" "/root/a.out" EACCES) eq_refl).
Defined.

(** X4: a path in a file system without files. *)
Lemma missing_path_exits_1_witness :
  main (tables_present []) checks_pass empty_fs "elfsize" ["a.out"%string]
  = {| stdout := [];
       stderr := [Text ("a.out does not exist, exiting" ++ LF)%string];
       exit := Exited 1 |}.
Proof.
  apply (missing_path_exits_1 (tables_present []) checks_pass empty_fs
           "elfsize" "a.out" []).
  left. exists "stat", "a.out"%string. reflexivity.
Defined.

(** X5: the 64-bit example is printed as 4416. *)
Lemma prints_size_of_accepted_file_witness :
  main (tables_present five_sections) checks_pass (one_file elf64_example) "elfsize"
    ["a.out"%string]
  = {| stdout := [("4416" ++ LF)%string]; stderr := []; exit := Exited 0 |}.
Proof.
  eapply (prints_size_of_accepted_file (tables_present five_sections) checks_pass
            (one_file elf64_example) "elfsize" "a.out" []
            (regular_file elf64_example) elf64_example);
    vm_compute; reflexivity.
Defined.

(** X8: the 64-bit example, alone and with sixteen bytes appended. *)
Lemma trailing_bytes_do_not_count_witness :
  CalculateElfSize (tables_present five_sections) checks_pass
    (one_file elf64_with_trailer) "a.run"
  = CalculateElfSize (tables_present five_sections) checks_pass
      (one_file elf64_example) "a.out".
Proof.
  eapply (trailing_bytes_do_not_count (tables_present five_sections) checks_pass
            (one_file elf64_example) (one_file elf64_with_trailer) "a.out" "a.run"
            (regular_file elf64_example) (regular_file elf64_with_trailer)
            elf64_example script_start);
    vm_compute; reflexivity.
Defined.


(** X11: the size 4416 of the 64-bit example is not 0. *)
Lemma nonzero_size_needs_ELF_header_witness :
  fst (CalculateElfSize (tables_present five_sections) checks_pass
         (one_file elf64_example) "a.out")
  = 4416
  /\ exists (f : File) (bs : list byte),
       sys_open (one_file elf64_example) "a.out" = inr f
       /\ stat_err f = None
       /\ contents f = inr bs
       /\ bad_magic bs = false
       /\ (index bs EI_CLASS = ELFCLASS32 \/ index bs EI_CLASS = ELFCLASS64)
       /\ (index bs EI_DATA = ELFDATA2LSB \/ index bs EI_DATA = ELFDATA2MSB)
       /\ index bs EI_VERSION = EV_CURRENT
       /\ ((if (index bs EI_CLASS =? ELFCLASS32)%Z then Header32.size else Header64.size)
           <= List.length bs)%nat
       /\ CalculateElfSize (tables_present five_sections) checks_pass
            (one_file elf64_example) "a.out"
          = (to_int64 (section_header_offset (file_header bs)
                       + section_header_entry_size (file_header bs)
                         * section_header_entry_count (file_header bs)), []).
Proof.
  split; [reflexivity|].
  apply (nonzero_size_needs_ELF_header (tables_present five_sections) checks_pass
           (one_file elf64_example) "a.out").
  vm_compute. discriminate.
Defined.

(** X12: the 64-bit example is for machine 62, which the library names
    EM_X86_64. *)
Lemma architecture_of_accepted_file_witness :
  machine_names 62 = "EM_X86_64"
  /\ GetElfArchitecture (tables_present five_sections) checks_pass machine_names
       (one_file elf64_example) "a.out" = ("x86_64", None).
Proof.
  split; [reflexivity|].
  eapply (architecture_of_accepted_file (tables_present five_sections) checks_pass
            machine_names (one_file elf64_example) "a.out"
            (regular_file elf64_example) elf64_example);
    vm_compute; reflexivity.
Defined.

(** X14: a file that may not be opened. *)
Lemma architecture_error_witness :
  GetElfArchitecture (tables_present []) checks_pass machine_names no_access
    "/root/a.out"
  = ("", Some (FormatError 0 "cannot read ELF identifier" (ValError ErrInvalid))).
Proof.
  exact (architecture_error (tables_present []) checks_pass machine_names no_access
           "/root/a.out" (PathError "open" "/root/a.out" EACCES) eq_refl).
Defined.

(** X15: of two sections named [.text] the first is answered for. *)
Lemma first_section_of_a_name_wins_witness :
  GetSectionOffsetAndLength (tables_present two_text_sections) checks_pass
    (one_file elf64_two_text) "a.out" ".text" = (64, 4, None)
  /\ GetSectionData (tables_present two_text_sections) checks_pass
       (one_file elf64_two_text) "a.out" ".text" = (Some [x90; x90; x90; xc3], None).
Proof.
  assert (Hnew : exists e,
             NewFile (tables_present two_text_sections) checks_pass
               (fst (os_Open (one_file elf64_two_text) "a.out")) = inr e
             /\ ElfFile.Sections e = two_text_sections)
    by (eexists; split; vm_compute; reflexivity).
  destruct Hnew as (e & Hnew & Hsec).
  refine (first_section_of_a_name_wins (tables_present two_text_sections) checks_pass
            (one_file elf64_two_text) "a.out" ".text" e
            (firstn 1 two_text_sections) (skipn 2 two_text_sections)
            text_section Hnew Hsec _ eq_refl).
  cbn. intuition discriminate.
Defined.

(** X16: the data of [.text] and its place. *)
Lemma data_and_offset_agree_witness :
  exists (f : ElfFile.t) (s : ElfSection.t),
    NewFile (tables_present five_sections) checks_pass
      (fst (os_Open (one_file elf64_example) "a.out")) = inr f
    /\ In s (ElfFile.Sections f)
    /\ ElfSection.Name s = ".text"
    /\ ElfSection.Data s = inr [x90; x90; x90; xc3]
    /\ GetSectionData (tables_present five_sections) checks_pass
         (one_file elf64_example) "a.out" ".text"
       = (Some [x90; x90; x90; xc3], None)
    /\ GetSectionOffsetAndLength (tables_present five_sections) checks_pass
         (one_file elf64_example) "a.out" ".text"
       = (ElfSection.Offset s, ElfSection.Size s, None).
Proof.
  exact (data_and_offset_agree (tables_present five_sections) checks_pass
           (one_file elf64_example) "a.out" ".text" [x90; x90; x90; xc3] eq_refl).
Defined.
